(** * GFF3 reader, writer and sniffer of scikit-bio: a shallow embedding

    Source: [skbio/io/format/gff3.py].  Each function of that module is
    embedded under its own name; Python builtins ([str.split], [str.strip],
    [int], [repr], [re.match]) get a small model of their own in the module
    [Py].  Exceptions are values of the type [exn]; code that can raise
    returns a [result]; code that mutates an object or prints to a file
    handle threads that object through the state-and-error monad [M]. *)

From Stdlib Require Import ZArith Ascii String DecimalString DecimalPos.
From stdpp Require Import gmap strings list.

Open Scope string_scope.
Open Scope list_scope.

(** ** Python values, exceptions and control flow *)

(** The exceptions the module can raise.  [GFF3FormatError] carries the
    message built in the source; the builtin exceptions carry the message
    CPython 3 gives them. *)
Inductive exn : Type :=
| GFF3FormatError (msg : string)
| ValueError (msg : string)
| NameError (name : string)
| TypeError (msg : string)
| StopIteration.

Inductive result (A : Type) : Type :=
| Ok (a : A)
| Raise (e : exn).

Arguments Ok {A} a.
Arguments Raise {A} e.

Definition result_bind {A B : Type} (r : result A) (k : A -> result B)
  : result B :=
  match r with
  | Ok a => k a
  | Raise e => Raise e
  end.

Notation "'let*' x ':=' r 'in' k" := (result_bind r (fun x => k))
  (at level 10, x name, r at level 100, k at level 200, only parsing).

(** A computation over a mutable object of type [S]: it leaves the object in
    some state whether it returns or raises. *)
Definition M (S A : Type) : Type := S -> S * result A.

Definition ret {S A : Type} (a : A) : M S A := fun s => (s, Ok a).

Definition raise {S A : Type} (e : exn) : M S A := fun s => (s, Raise e).

Definition bind {S A B : Type} (m : M S A) (k : A -> M S B) : M S B :=
  fun s =>
    match m s with
    | (s', Ok a) => k a s'
    | (s', Raise e) => (s', Raise e)
    end.

Definition lift {S A : Type} (r : result A) : M S A := fun s => (s, r).

Definition modify {S : Type} (f : S -> S) : M S unit := fun s => (f s, Ok tt).

Notation "'do*' x ':=' m 'in' k" := (bind m (fun x => k))
  (at level 10, x name, m at level 100, k at level 200, only parsing).
Notation "m '>>' k" := (bind m (fun _ => k))
  (at level 90, right associativity, only parsing).

(** [for x in l: body x]: the loop stops at the first iteration that raises;
    what earlier iterations did to the object stays done. *)
Fixpoint for_each {S A : Type} (body : A -> M S unit) (l : list A) : M S unit :=
  match l with
  | [] => ret tt
  | x :: rest => body x >> for_each body rest
  end.

(** A value stored in a metadata dict: the parser stores [str] values, and
    its [isinstance(phase, int)] branch would store an [int]. *)
Inductive pyval : Type :=
| PyStr (s : string)
| PyInt (z : Z).

Definition isinstance_int (v : pyval) : bool :=
  match v with
  | PyInt _ => true
  | PyStr _ => false
  end.

(** ** Builtins *)

Module Py.

Definition tab : ascii := "009"%char.
Definition dquote : ascii := "034"%char.
Definition squote : ascii := "039"%char.
Definition backslash : ascii := "092"%char.

(** [str.isspace] on one character, for the ASCII range: TAB, LF, VT, FF, CR,
    FS, GS, RS, US and SPACE.  The regular-expression class [\s] of a [str]
    pattern matches the same ASCII characters. *)
Definition is_space (c : ascii) : bool :=
  let n := nat_of_ascii c in
  ((9 <=? n) && (n <=? 13) || (28 <=? n) && (n <=? 32))%nat.

(** [s.lstrip()], [s.rstrip()], [s.strip()] *)
Fixpoint lstrip (s : string) : string :=
  match s with
  | String c s' => if is_space c then lstrip s' else s
  | EmptyString => EmptyString
  end.

Fixpoint rstrip (s : string) : string :=
  match s with
  | String c s' =>
      match rstrip s' with
      | EmptyString => if is_space c then EmptyString else String c EmptyString
      | r => String c r
      end
  | EmptyString => EmptyString
  end.

Definition strip (s : string) : string := rstrip (lstrip s).

(** [s.isspace()]: non-empty and all whitespace *)
Fixpoint all_space (s : string) : bool :=
  match s with
  | String c s' => is_space c && all_space s'
  | EmptyString => true
  end.

Definition isspace (s : string) : bool :=
  match s with
  | EmptyString => false
  | _ => all_space s
  end.

(** [s.startswith(c)] for a one-character prefix *)
Definition startswith (c : ascii) (s : string) : bool :=
  match s with
  | String d _ => bool_decide (d = c)
  | EmptyString => false
  end.

(** [s.split(sep)] for a one-character separator: never the empty list *)
Fixpoint split (sep : ascii) (s : string) : list string :=
  match s with
  | EmptyString => [EmptyString]
  | String c s' =>
      if bool_decide (c = sep) then EmptyString :: split sep s'
      else match split sep s' with
           | h :: t => String c h :: t
           | [] => [String c EmptyString]
           end
  end.

(** [s.split(sep, 1)]: cut at the first separator only *)
Fixpoint split1 (sep : ascii) (s : string) : list string :=
  match s with
  | EmptyString => [EmptyString]
  | String c s' =>
      if bool_decide (c = sep) then [EmptyString; s']
      else match split1 sep s' with
           | h :: t => String c h :: t
           | [] => [String c EmptyString]
           end
  end.

(** [sep.join(l)] on a list of [str] *)
Fixpoint join (sep : ascii) (l : list string) : string :=
  match l with
  | [] => EmptyString
  | [x] => x
  | x :: rest => x +:+ String sep (join sep rest)
  end.

(** [str(z)] for an [int] *)
Definition str (z : Z) : string := NilZero.string_of_int (Z.to_int z).

(** [repr(s)] for a [str] of ASCII characters: single quotes unless the
    string has a single quote and no double quote; backslash, the quote and
    control characters are escaped. *)
Fixpoint contains (c : ascii) (s : string) : bool :=
  match s with
  | String d s' => bool_decide (d = c) || contains c s'
  | EmptyString => false
  end.

Definition hex_digit (n : nat) : ascii :=
  if (n <? 10)%nat then ascii_of_nat (48 + n) else ascii_of_nat (87 + n).

Definition repr_char (quote c : ascii) : string :=
  let n := nat_of_ascii c in
  if bool_decide (c = quote) || bool_decide (c = backslash)
  then String backslash (String c EmptyString)
  else if (n =? 9)%nat then String backslash "t"
  else if (n =? 10)%nat then String backslash "n"
  else if (n =? 13)%nat then String backslash "r"
  else if ((n <? 32) || (n =? 127))%nat
  then String backslash
         (String "x" (String (hex_digit (n / 16))
                        (String (hex_digit (n mod 16)) EmptyString)))
  else String c EmptyString.

Fixpoint repr_body (quote : ascii) (s : string) : string :=
  match s with
  | String c s' => repr_char quote c +:+ repr_body quote s'
  | EmptyString => EmptyString
  end.

Definition repr (s : string) : string :=
  let quote :=
    if contains squote s && negb (contains dquote s) then dquote else squote in
  String quote (repr_body quote s +:+ String quote EmptyString).

(** The whitespace [int] skips around a literal: TAB, LF, VT, FF, CR and
    SPACE.  FS, GS, RS and US are whitespace for [str.strip], but [int]
    does not skip them. *)
Definition is_int_space (c : ascii) : bool :=
  let n := nat_of_ascii c in
  ((9 <=? n) && (n <=? 13) || (n =? 32))%nat.

Fixpoint int_lstrip (s : string) : string :=
  match s with
  | String c s' => if is_int_space c then int_lstrip s' else s
  | EmptyString => EmptyString
  end.

Fixpoint int_rstrip (s : string) : string :=
  match s with
  | String c s' =>
      match int_rstrip s' with
      | EmptyString =>
          if is_int_space c then EmptyString else String c EmptyString
      | r => String c r
      end
  | EmptyString => EmptyString
  end.

Definition int_strip (s : string) : string := int_rstrip (int_lstrip s).

(** The first [n] characters of a string: the format [%.200R] of the error
    message of [int] cuts the repr of its argument at 200 characters. *)
Fixpoint take (n : nat) (s : string) : string :=
  match n, s with
  | S n', String c s' => String c (take n' s')
  | _, _ => EmptyString
  end.

(** [int(s)] for a [str]: surrounding whitespace is ignored, one sign is
    allowed, the digits may be grouped by single underscores. *)
Definition digit_val (c : ascii) : option Z :=
  let n := nat_of_ascii c in
  if ((48 <=? n) && (n <=? 57))%nat then Some (Z.of_nat (n - 48)) else None.

Fixpoint parse_digits (acc : Z) (after_digit : bool) (s : string) : option Z :=
  match s with
  | EmptyString => if after_digit then Some acc else None
  | String c s' =>
      if bool_decide (c = "_"%char)
      then if after_digit then parse_digits acc false s' else None
      else match digit_val c with
           | Some d => parse_digits (10 * acc + d) true s'
           | None => None
           end
  end.

Definition int_literal (s : string) : option Z :=
  match int_strip s with
  | String "+" r => parse_digits 0 false r
  | String "-" r => Z.opp <$> parse_digits 0 false r
  | t => parse_digits 0 false t
  end.

Definition int (s : string) : result Z :=
  match int_literal s with
  | Some z => Ok z
  | None =>
      Raise (ValueError ("invalid literal for int() with base 10: "
                         +:+ take 200 (repr s)))
  end.

(** [next(it)] on an iterator over the list [l] *)
Definition next {A : Type} (l : list A) : result A :=
  match l with
  | x :: _ => Ok x
  | [] => Raise StopIteration
  end.

(** [a, b = l]: unpacking into exactly two names *)
Definition unpack2 {A : Type} (l : list A) : result (A * A) :=
  match l with
  | [a; b] => Ok (a, b)
  | [] => Raise (ValueError "not enough values to unpack (expected 2, got 0)")
  | [_] => Raise (ValueError "not enough values to unpack (expected 2, got 1)")
  | _ => Raise (ValueError "too many values to unpack (expected 2)")
  end.

(** [re.match(r'##gff-version\s+3', line)]: the literal prefix, then one or
    more whitespace characters taken greedily, then the digit.  Giving back
    whitespace cannot help the match, since the digit is not whitespace. *)
Fixpoint strip_prefix (p s : string) : option string :=
  match p, s with
  | EmptyString, _ => Some s
  | String a p', String b s' =>
      if bool_decide (a = b) then strip_prefix p' s' else None
  | String _ _, EmptyString => None
  end.

Definition re_match_gff_version (line : string) : bool :=
  match strip_prefix "##gff-version" line with
  | Some (String c rest) => is_space c && startswith "3" (lstrip rest)
  | _ => false
  end.

End Py.

(** ** Collaborators of the module *)

(** A text stream is the list of lines that iterating over the file handle
    gives, each line with its line end. *)

(** Modelled from the spec: [_line_generator] of [skbio.io.format._base] is
    not among the sources.  The spec has a "lazy, forward-only sequence of
    lines with blank-line skipping", the lines trimmed when [strip] is set. *)
Fixpoint _line_generator (fh : list string) (skip_blanks strip : bool)
  : list string :=
  match fh with
  | [] => []
  | raw :: rest =>
      let line := if strip then Py.strip raw else raw in
      let skip := skip_blanks && (Py.isspace line || bool_decide (line = "")) in
      if skip then _line_generator rest skip_blanks strip
      else line :: _line_generator rest skip_blanks strip
  end.

(** Modelled from the spec: [_too_many_blanks] of [skbio.io.format._base] is
    not among the sources.  The spec has a "bounded too-many-leading-blanks
    probe": the budget is exceeded when more than [max_blanks] blank lines
    come before the first non-blank one. *)
Fixpoint leading_blanks (fh : list string) : nat :=
  match fh with
  | raw :: rest =>
      if bool_decide (Py.strip raw = "") then S (leading_blanks rest) else 0
  | [] => 0
  end.

Definition _too_many_blanks (fh : list string) (max_blanks : nat) : bool :=
  (max_blanks <? leading_blanks fh)%nat.

(** Modelled from the spec: [IntervalMetadata] of [skbio.metadata] is not
    among the sources.  The spec has a container that exposes
    [add(bounds, metadata)], "idempotent per call, no dedup", and an ordered
    iteration over its records in insertion order. *)
Record Interval : Type := {
  bounds : list (Z * Z);
  metadata : gmap string pyval
}.

Record IntervalMetadata : Type := {
  _intervals : list Interval
}.

Definition add (bnds : list (Z * Z)) (md : gmap string pyval)
  : M IntervalMetadata unit :=
  modify (fun imd =>
    {| _intervals := _intervals imd ++ [{| bounds := bnds; metadata := md |}] |}).

(** A generator that has run: what it yielded, in order, and how it ended. *)
Definition generator (A : Type) : Type := list A * result unit.

(** Modelled from the spec: [_get_nth_sequence] of [skbio.io.format._base] is
    not among the sources.  The spec has "a helper that, given the lazy
    sequence of groups, returns the N-th group (1-based) or fails if the
    stream has fewer groups than requested".  The generator is lazy: an
    exception it raises after its N-th item is not seen. *)
Definition _get_nth_record {A : Type} (gen : generator A) (rec_num : nat)
  : result A :=
  match rec_num with
  | O => Raise (ValueError "Invalid record number")
  | S n =>
      match fst gen !! n, snd gen with
      | Some item, _ => Ok item
      | None, Raise e => Raise e
      | None, Ok _ => Raise (ValueError "InsufficientRecords")
      end
  end.

(** ** The sniffer *)

Definition _gff3_sniffer (fh : list string)
  : result (bool * gmap string pyval) :=
  if _too_many_blanks fh 5 then Ok (false, ∅)
  else
    match Py.next (_line_generator fh true false) with
    | Raise StopIteration => Ok (false, ∅)
    | Raise e => Raise e
    | Ok line =>
        if Py.re_match_gff_version line then Ok (true, ∅) else Ok (false, ∅)
    end.

(** ** The record grouper *)

(** The variable [current]: [False], or a sequence identifier. *)
Inductive current_id : Type :=
| CurFalse
| CurStr (seq_id : string).

#[global] Instance current_id_eq_dec : EqDecision current_id.
Proof. solve_decision. Defined.

(** The locals of the generator, and the pairs it has yielded so far, each
    as its consumer gets it while the generator is suspended.  Every pair
    holds the one list object [lines]; the loop is shown below to yield
    nothing, so no pair is ever changed after it was handed out. *)
Record grouper : Type := {
  lines : list string;
  current : current_id;
  yielded : list (current_id * list string)
}.

Definition lines_append (line : string) : M grouper unit :=
  modify (fun g =>
    {| lines := lines g ++ [line]; current := current g;
       yielded := yielded g |}).

Definition yield_current_lines : M grouper unit :=
  modify (fun g =>
    {| lines := lines g; current := current g;
       yielded := yielded g ++ [(current g, lines g)] |}).

Definition set_current (c : current_id) : M grouper unit :=
  modify (fun g =>
    {| lines := lines g; current := c; yielded := yielded g |}).

Definition _yield_record_body (line : string) : M grouper unit :=
  if negb (Py.startswith "#" line) then
    do* parts := lift (Py.unpack2 (Py.split1 Py.tab line)) in
    let seq_id := fst parts in
    fun g =>
      if bool_decide (current g = CurStr seq_id)
         || bool_decide (current g = CurFalse)
      then lines_append line g
      else (yield_current_lines >> set_current CurFalse) g
  else ret tt.

Definition _yield_record (fh : list string)
  : generator (current_id * list string) :=
  let run :=
    for_each _yield_record_body (_line_generator fh true true)
    >> yield_current_lines in
  let '(g, r) := run {| lines := []; current := CurFalse; yielded := [] |} in
  (yielded g, r).

(** ** The column parser *)

Definition pyval_eqb (v w : pyval) : bool :=
  match v, w with
  | PyStr s, PyStr t => bool_decide (s = t)
  | PyInt a, PyInt b => bool_decide (a = b)
  | _, _ => false
  end.

(** [repr(v)] and [int(v)] of a stored value *)
Definition pyval_repr (v : pyval) : string :=
  match v with
  | PyStr s => Py.repr s
  | PyInt z => Py.str z
  end.

Definition pyval_int (v : pyval) : result Z :=
  match v with
  | PyStr s => Py.int s
  | PyInt z => Ok z
  end.

Definition not_9_columns (line : string) : string :=
  "do not have 9 columns in this line: "
  +:+ String Py.dquote (line +:+ String Py.dquote EmptyString).

Definition unknown_phase (phase : pyval) : string :=
  "unknown value for phase column: " +:+ pyval_repr phase.

(** One turn of the loop of [_parse_record].  The length test of the source
    is the match on the nine columns. *)
Definition _parse_record_body (line : string) : M IntervalMetadata unit :=
  match Py.split Py.tab line with
  | [_; source; type_; start; end_; score; strand; column7; _] =>
      let md : gmap string pyval :=
        <["strand" := PyStr strand]>
          (<["score" := PyStr score]>
             (<["type" := PyStr type_]>
                (<["source" := PyStr source]> ∅))) in
      let phase := PyStr column7 in
      do* md :=
        (if isinstance_int phase then
           do* p := lift (pyval_int phase) in
           ret (<["phase" := PyInt p]> md)
         else if negb (pyval_eqb phase (PyStr ".")) then
           raise (GFF3FormatError (unknown_phase phase))
         else ret md) in
      do* s := lift (Py.int start) in
      do* e := lift (Py.int end_) in
      add [((s - 1)%Z, e)] md
  | _ => raise (GFF3FormatError (not_9_columns line))
  end.

(** The function returns the object it was given, so its result is the final
    state of that object. *)
Definition _parse_record (lns : list string) : M IntervalMetadata unit :=
  for_each _parse_record_body lns.

Definition _gff3_to_interval_metadata (fh : list string) (rec_num : nat)
  : M IntervalMetadata unit :=
  do* rec := lift (_get_nth_record (_yield_record fh) rec_num) in
  _parse_record (snd rec).

(** ** The generator reader *)

#[global] Instance current_id_countable : Countable current_id.
Proof.
  apply (inj_countable'
           (fun c => match c with CurFalse => None | CurStr s => Some s end)
           (fun o => match o with None => CurFalse | Some s => CurStr s end)).
  intros []; reflexivity.
Defined.

(** How [_gff3_to_generator] can end early: with the [KeyError] of
    [interval_metadata[seq_id]], whose argument is the key, or with an
    exception of the grouper or of the parser. *)
Inductive reader_exn : Type :=
| KeyError (key : current_id)
| Reraised (e : exn).

(** The dict the caller passes, from the value of [seq_id] to the collection
    of that sequence, and the collections the generator has yielded, each as
    its consumer gets it while the generator is suspended. *)
Record reader : Type := {
  interval_metadata : gmap current_id IntervalMetadata;
  collections : list IntervalMetadata
}.

(** The loop [for seq_id, lines in _yield_record(fh)] over the pairs the
    grouper yields; when they are used up the grouper ends, normally or with
    its exception.  [_parse_record] changes the collection inside the dict,
    also when it raises. *)
Fixpoint to_generator_loop (groups : list (current_id * list string))
  (grouper_end : result unit) (rd : reader) : reader * option reader_exn :=
  match groups with
  | [] =>
      (rd, match grouper_end with
           | Ok _ => None
           | Raise e => Some (Reraised e)
           end)
  | (seq_id, lns) :: rest =>
      match interval_metadata rd !! seq_id with
      | None => (rd, Some (KeyError seq_id))
      | Some imd =>
          let '(imd', r) := _parse_record lns imd in
          let dict := <[seq_id := imd']> (interval_metadata rd) in
          match r with
          | Raise e =>
              ({| interval_metadata := dict; collections := collections rd |},
               Some (Reraised e))
          | Ok _ =>
              to_generator_loop rest grouper_end
                {| interval_metadata := dict;
                   collections := collections rd ++ [imd'] |}
          end
      end
  end.

Definition _gff3_to_generator (fh : list string)
  (dict : gmap current_id IntervalMetadata) : reader * option reader_exn :=
  let '(groups, grouper_end) := _yield_record fh in
  to_generator_loop groups grouper_end
    {| interval_metadata := dict; collections := [] |}.

(** ** The attribute parser *)

Section Attributes.

(** The table [_vocabulary_change('gff3')] builds; the function is in
    [skbio.io.format._sequence_feature_vocabulary], not among the
    sources. *)
Variable voca_change : gmap string string.

Definition _parse_attr_body (md : gmap string string) (attr : string)
  : result (gmap string string) :=
  let* kv := Py.unpack2 (Py.split "=" attr) in
  let k := fst kv in
  let v := snd kv in
  let k := match voca_change !! k with
           | Some k' => k'
           | None => k
           end in
  Ok (<[k := v]> md).

Fixpoint parse_attr_loop (md : gmap string string) (attrs : list string)
  : result (gmap string string) :=
  match attrs with
  | [] => Ok md
  | attr :: rest =>
      let* md' := _parse_attr_body md attr in
      parse_attr_loop md' rest
  end.

Definition _parse_attr (s : string) : result (gmap string string) :=
  parse_attr_loop ∅ (Py.split ";" s).

End Attributes.

(** ** The writer *)

Section Writer.

(** What the module-level name [_GFF3_HEADERS] is bound to when the writer
    runs: [None] when the name is unbound. *)
Variable _GFF3_HEADERS : option (list string).

(** The file handle is the list of the lines printed to it. *)
Definition print (line : string) : M (list string) unit :=
  modify (fun fh : list string => fh ++ [line]).

Definition column (md : gmap string pyval) (bound : Z * Z) (head : string)
  : pyval :=
  if bool_decide (head = "START") then PyStr (Py.str (fst bound + 1))
  else if bool_decide (head = "END") then PyStr (Py.str (snd bound))
  else match md !! head with
       | Some v => v
       | None => PyStr "."
       end.

(** ['\t'.join(columns)] raises on an item that is not a [str] *)
Fixpoint str_items (columns : list pyval) : result (list string) :=
  match columns with
  | [] => Ok []
  | PyStr s :: rest =>
      let* items := str_items rest in Ok (s :: items)
  | PyInt _ :: _ =>
      Raise (TypeError "sequence item: expected str instance, int found")
  end.

(** One turn of [for bound in interval.bounds]; [columns] is created once
    per interval and lives across the turns. *)
Definition write_bound (md : gmap string pyval) (columns : list pyval)
  (bound : Z * Z) : M (list string) (list pyval) :=
  match _GFF3_HEADERS with
  | None => raise (NameError "_GFF3_HEADERS")
  | Some headers =>
      let columns := columns ++ map (column md bound) (drop 1 headers) in
      do* items := lift (str_items columns) in
      print (Py.join Py.tab items) >> ret columns
  end.

Fixpoint write_bounds (md : gmap string pyval) (columns : list pyval)
  (bnds : list (Z * Z)) : M (list string) unit :=
  match bnds with
  | [] => ret tt
  | bound :: rest =>
      do* columns' := write_bound md columns bound in
      write_bounds md columns' rest
  end.

Definition write_interval (seq_id : string) (interval : Interval)
  : M (list string) unit :=
  write_bounds (metadata interval) [PyStr seq_id] (bounds interval).

Definition _interval_metadata_to_gff3 (obj : IntervalMetadata)
  (seq_id : string) : M (list string) unit :=
  print "##gff-version 3"
  >> for_each (write_interval seq_id) (_intervals obj).

End Writer.

(** [gff3.py] binds at module level the names it imports ([re],
    [create_format], [GFF3FormatError], [IntervalMetadata], [_line_generator],
    [_too_many_blanks], [_get_nth_record], [_vocabulary_change],
    [_vocabulary_skip]), [gff3] and its seven functions, and no other.
    [_GFF3_HEADERS] is neither among them nor a builtin: the writer finds the
    name unbound. *)
Definition module_GFF3_HEADERS : option (list string) := None.

(** * Specification and sample data *)

(** ** Words of the claims *)

(** A data line is a line that is not a comment. *)
Definition is_data (line : string) : bool := negb (Py.startswith "#" line).

(** A blank line has nothing but whitespace. *)
Definition blank (raw : string) : Prop := Py.strip raw = "".

(** A line matches the pattern of the version directive: the literal
    [##gff-version], then whitespace, at least one character of it, then the
    digit 3, then anything. *)
Definition gff_version_3 (line : string) : Prop :=
  exists ws rest : string,
    line = "##gff-version" +:+ ws +:+ "3" +:+ rest
    /\ ws <> "" /\ Py.all_space ws = true.

(** The record the parser stores for a data line: the one bound
    (start - 1, end) and the metadata of four of the columns. *)
Definition record_of (source type_ score strand : string) (s e : Z) : Interval :=
  {| bounds := [((s - 1)%Z, e)];
     metadata :=
       {[ "source" := PyStr source; "type" := PyStr type_;
          "score" := PyStr score; "strand" := PyStr strand ]} |}.

(** The collection after [add]: the new record comes last. *)
Definition imd_add (imd : IntervalMetadata) (i : Interval) : IntervalMetadata :=
  {| _intervals := _intervals imd ++ [i] |}.

(** The error of unpacking a one-item list into two names *)
Definition unpack_got_1 : exn :=
  ValueError "not enough values to unpack (expected 2, got 1)".

(** The grouping the docstring of [_yield_record] and the spec ask for, in
    the spec's words: keep a current identifier, unset at first, and a
    buffer; a data line with the current identifier (or the first one) goes
    to the buffer; another identifier yields the pair of the current
    identifier and the buffer, and starts a buffer with the new line under
    the new identifier; the last buffer is yielded at the end. *)
Definition leading_id (line : string) : string :=
  match Py.split1 Py.tab line with
  | seq_id :: _ => seq_id
  | [] => line
  end.

Fixpoint spec_group_loop (current_id : option string) (buffer : list string)
  (lns : list string) : list (option string * list string) :=
  match lns with
  | [] => [(current_id, buffer)]
  | line :: rest =>
      match current_id with
      | None => spec_group_loop (Some (leading_id line)) (buffer ++ [line]) rest
      | Some id =>
          if bool_decide (id = leading_id line)
          then spec_group_loop current_id (buffer ++ [line]) rest
          else (current_id, buffer)
               :: spec_group_loop (Some (leading_id line)) [line] rest
      end
  end.

Definition spec_group (fh : list string) : list (option string * list string) :=
  spec_group_loop None [] (List.filter is_data (_line_generator fh true true)).

(** The number of occurrences of a character; a segment of the attribute
    column is well formed when it has one equals sign. *)
Fixpoint count (c : ascii) (s : string) : nat :=
  match s with
  | String d s' => (if bool_decide (d = c) then 1 else 0) + count c s'
  | EmptyString => 0
  end.

Definition one_equals (segment : string) : Prop := count "=" segment = 1.

#[global] Instance one_equals_dec (segment : string) : Decision (one_equals segment).
Proof. unfold one_equals. apply _. Defined.

(** The attribute mapping of the spec, in its words: split the raw column on
    the semicolon; split each segment on its first equals sign into a tag
    and a value; replace the tag by its entry in the rename table, if it has
    one; insert the pairs in order, a later pair replacing an earlier one
    with the same tag. *)
Definition rename (table : gmap string string) (tag : string) : string :=
  default tag (table !! tag).

Definition tag_value (table : gmap string string) (segment : string)
  : string * string :=
  match Py.split1 "=" segment with
  | [tag; value] => (rename table tag, value)
  | _ => (rename table segment, "")
  end.

Definition insert_pair (m : gmap string string) (kv : string * string)
  : gmap string string :=
  <[kv.1 := kv.2]> m.

Definition spec_attributes (table : gmap string string) (raw : string)
  : gmap string string :=
  foldl insert_pair ∅ (map (tag_value table) (Py.split ";" raw)).

(** A column without an equals sign *)
Definition no_equals (v : pyval) : Prop :=
  match v with
  | PyStr s => Py.contains "=" s = false
  | PyInt _ => False
  end.

(** ** Words of the further properties *)

(** A line the grouper can take: a comment, or a line with a tab *)
Definition has_tab_or_comment (line : string) : bool :=
  negb (is_data line) || Py.contains Py.tab line.

(** The lines that reach the grouper, and the data lines among them *)
Definition grouper_lines (fh : list string) : list string :=
  _line_generator fh true true.

Definition data_lines (fh : list string) : list string :=
  List.filter is_data (grouper_lines fh).

(** The shape of a record the parser stores: one bound, and the four keys
    source, type, score and strand. *)
Definition stored_shape (i : Interval) : Prop :=
  length (bounds i) = 1
  /\ dom (metadata i) = ({[ "source"; "type"; "score"; "strand" ]} : gset string).

(** A metadata dict whose values are all [str] *)
Definition all_str (md : gmap string pyval) : Prop :=
  forall (k : string) (v : pyval), md !! k = Some v -> exists s, v = PyStr s.


(** ** Sample data *)

Definition tsv (columns : list string) : string := Py.join Py.tab columns.

Definition newline : string := String "010"%char EmptyString.

Definition header_line : string := "##gff-version 3".

Definition version_line (version : string) : string :=
  tsv ["##gff-version"; version] +:+ newline.

Definition empty_imd : IntervalMetadata := {| _intervals := [] |}.

(** The first data line of the module docstring, the stream around it, and
    the collection it is read into *)
Definition gene_line : string :=
  tsv ["ctg123"; "."; "gene"; "1000"; "9000"; "."; "+"; ".";
       "ID=gene00001;Name=EDEN"].

Definition gene_stream : list string :=
  [version_line "3.2.1";
   tsv ["##sequence-region"; "ctg123"; "1"; "1497228"] +:+ newline;
   gene_line +:+ newline].

Definition gene_metadata : gmap string pyval :=
  {[ "source" := PyStr "."; "type" := PyStr "gene"; "score" := PyStr ".";
     "strand" := PyStr "+" ]}.

Definition gene_imd : IntervalMetadata :=
  {| _intervals :=
       [{| bounds := [(999%Z, 9000%Z)]; metadata := gene_metadata |}] |}.

(** Lines of eight and of ten fields *)
Definition eight_fields : string :=
  tsv ["ctg123"; "."; "gene"; "1000"; "9000"; "."; "+"; "."].

Definition ten_fields : string :=
  tsv ["ctg123"; "."; "gene"; "1000"; "9000"; "."; "+"; "."; "ID=g1"; "x"].

(** A coding-sequence line, as in the test data of the repository, with a
    phase column to choose *)
Definition cds_with_phase (phase : string) : string :=
  tsv ["ctg123"; "Prodigal_v2.60"; "CDS"; "3"; "98"; "1.8"; "+"; phase;
       "ID=1_1"].

(** A stream whose third line has blanks where tabs should be *)
Definition untabbed_stream : list string :=
  ["##gff-version 3" +:+ newline; gene_line +:+ newline;
   "ctg123 . gene 1000 9000 . + . ID=gene00002" +:+ newline;
   gene_line +:+ newline].

(** A stream of three runs: seq1, seq2, and seq1 again *)
Definition seq1_line : string :=
  tsv ["seq1"; "."; "gene"; "1"; "9"; "."; "+"; "."; "ID=g1"].

Definition seq2_line : string :=
  tsv ["seq2"; "."; "gene"; "1"; "9"; "."; "+"; "."; "ID=g2"].

Definition two_sequences : list string :=
  ["##gff-version 3" +:+ newline; seq1_line +:+ newline;
   seq2_line +:+ newline; seq1_line +:+ newline].

(** The rename table that released versions of the vocabulary module build
    for gff3 *)
Definition later_table : gmap string string :=
  {[ "Dbxref" := "db_xref"; "Note" := "note" ]}.

(** The collection of the writer test
    [test_interval_metadata_to_gff3_missing_field] *)
Definition test_imd : IntervalMetadata :=
  {| _intervals :=
       [{| bounds := [(0%Z, 9%Z)];
           metadata :=
             {[ "source" := PyStr "."; "type" := PyStr "gene";
                "ATTR" := PyStr "ID=gene00001;Name=EDEN" ]} |}] |}.

(** A collection with one record of two bounds, all of its values [str] *)
Definition two_bounds : Interval :=
  {| bounds := [(0%Z, 9%Z); (20%Z, 30%Z)];
     metadata := {[ "source" := PyStr "."; "type" := PyStr "gene" ]} |}.

(** A collection whose one record has no bound *)
Definition no_bounds_imd : IntervalMetadata :=
  {| _intervals := [{| bounds := []; metadata := gene_metadata |}] |}.

(** The headers with the keys the parser stores *)
Definition lower_headers : list string :=
  ["SEQID"; "source"; "type"; "START"; "END"; "score"; "strand"; "phase";
   "ATTR"].

(** A stream of comments and blank lines only *)
Definition comments_only : list string :=
  ["##gff-version 3" +:+ newline; newline; "  # nothing here" +:+ newline].

(** The docstring line with another sequence identifier and other
    attributes *)
Definition gene_line_renamed : string :=
  tsv ["chr1"; "."; "gene"; "1000"; "9000"; "."; "+"; "."; "Note=other"].




(** * Properties *)

(** ** The loop of the state-and-error monad *)

Lemma for_each_app {S A : Type} (body : A -> M S unit) (l1 l2 : list A) (s : S) :
  for_each body (l1 ++ l2) s =
  match for_each body l1 s with
  | (s', Ok _) => for_each body l2 s'
  | (s', Raise e) => (s', Raise e)
  end.
Proof.
  revert s. induction l1 as [|x l1 IH]; intros s; simpl.
  - reflexivity.
  - unfold bind. destruct (body x s) as [s' [[]|e]]; [apply IH | reflexivity].
Qed.

(** A loop that raises has a first turn that raises: the turns before it
    returned, and the object is as that turn left it. *)
Lemma for_each_raise {S A : Type} (body : A -> M S unit) (l : list A)
  (s s' : S) (e : exn) :
  for_each body l s = (s', Raise e) ->
  exists pre x post s1,
    l = pre ++ x :: post /\
    for_each body pre s = (s1, Ok tt) /\
    body x s1 = (s', Raise e).
Proof.
  revert s. induction l as [|x l IH]; intros s H; simpl in H.
  - discriminate.
  - unfold bind in H. destruct (body x s) as [s1 [[]|e1]] eqn:Hx.
    + destruct (IH _ H) as (pre & y & post & s2 & -> & Hpre & Hy).
      exists (x :: pre), y, post, s2. split; [reflexivity|]. split; [|exact Hy].
      simpl. unfold bind. rewrite Hx. exact Hpre.
    + inversion H; subst. exists [], x, l, s. auto.
Qed.

(** ** Column parser: one line *)

(** Split on the number of columns of a line, up to nine and beyond. *)
Ltac columns_of line E :=
  destruct (Py.split Py.tab line)
    as [|c0 [|c1 [|c2 [|c3 [|c4 [|c5 [|c6 [|c7 [|c8 [|c9 t]]]]]]]]]] eqn:E.

Lemma body_wrong_count (line : string) (imd : IntervalMetadata) :
  length (Py.split Py.tab line) <> 9%nat ->
  _parse_record_body line imd = (imd, Raise (GFF3FormatError (not_9_columns line))).
Proof.
  intros H. unfold _parse_record_body.
  columns_of line E; try reflexivity.
  exfalso. apply H. reflexivity.
Qed.

Lemma pyval_eqb_str (s t : string) :
  pyval_eqb (PyStr s) (PyStr t) = bool_decide (s = t).
Proof. reflexivity. Qed.

(** What a nine-column line does, by its phase, start and end columns *)
Lemma body_nine (line c0 source type_ start end_ score strand column7 c8 : string)
  (imd : IntervalMetadata) :
  Py.split Py.tab line =
    [c0; source; type_; start; end_; score; strand; column7; c8] ->
  _parse_record_body line imd =
  if bool_decide (column7 = ".") then
    match Py.int start, Py.int end_ with
    | Ok s, Ok e => (imd_add imd (record_of source type_ score strand s e), Ok tt)
    | Ok _, Raise err => (imd, Raise err)
    | Raise err, _ => (imd, Raise err)
    end
  else (imd, Raise (GFF3FormatError (unknown_phase (PyStr column7)))).
Proof.
  intros H. unfold _parse_record_body. rewrite H. cbn [isinstance_int].
  rewrite pyval_eqb_str.
  destruct (bool_decide (column7 = ".")); cbn [negb]; [|reflexivity].
  unfold bind, ret, lift.
  destruct (Py.int start) as [s|err]; [|reflexivity].
  destruct (Py.int end_) as [e|err]; reflexivity.
Qed.

(** A turn that raises adds nothing; a turn that returns adds one record. *)
Lemma body_raise_unchanged (line : string) (imd imd' : IntervalMetadata) (e : exn) :
  _parse_record_body line imd = (imd', Raise e) -> imd' = imd.
Proof.
  destruct (decide (length (Py.split Py.tab line) = 9%nat)) as [Hlen|Hlen].
  - columns_of line E; try discriminate Hlen.
    rewrite (body_nine _ _ _ _ _ _ _ _ _ _ imd E).
    destruct (bool_decide (c7 = ".")).
    + destruct (Py.int c3); [destruct (Py.int c4)|]; intros [= <-]; try reflexivity.
    + intros [= <-]; reflexivity.
  - rewrite (body_wrong_count _ _ Hlen). intros [= <-]; reflexivity.
Qed.

Lemma body_ok_adds_one (line : string) (imd imd' : IntervalMetadata) :
  _parse_record_body line imd = (imd', Ok tt) ->
  exists i, imd' = imd_add imd i.
Proof.
  destruct (decide (length (Py.split Py.tab line) = 9%nat)) as [Hlen|Hlen].
  - columns_of line E; try discriminate Hlen.
    rewrite (body_nine _ _ _ _ _ _ _ _ _ _ imd E).
    destruct (bool_decide (c7 = ".")); [|discriminate].
    destruct (Py.int c3); [destruct (Py.int c4)|]; try discriminate.
    intros [= <-]. eexists; reflexivity.
  - rewrite (body_wrong_count _ _ Hlen). discriminate.
Qed.

Lemma parse_record_single (line : string) (imd : IntervalMetadata) :
  _parse_record [line] imd = _parse_record_body line imd.
Proof.
  unfold _parse_record. simpl. unfold bind, ret.
  destruct (_parse_record_body line imd) as [imd' [[]|e]]; reflexivity.
Qed.

Lemma parse_record_cons (line : string) (lns : list string) (imd : IntervalMetadata) :
  _parse_record (line :: lns) imd =
  match _parse_record_body line imd with
  | (imd', Ok _) => _parse_record lns imd'
  | (imd', Raise e) => (imd', Raise e)
  end.
Proof. reflexivity. Qed.

(** A group that parses adds one record per line, after those already in
    the collection. *)
Lemma parse_record_ok_adds (lns : list string) (imd imd' : IntervalMetadata) :
  _parse_record lns imd = (imd', Ok tt) ->
  exists added,
    _intervals imd' = _intervals imd ++ added /\ length added = length lns.
Proof.
  revert imd. induction lns as [|line lns IH]; intros imd H.
  - inversion H; subst. exists []. rewrite app_nil_r. auto.
  - rewrite parse_record_cons in H.
    destruct (_parse_record_body line imd) as [imd1 [[]|e]] eqn:Hb; [|discriminate].
    destruct (body_ok_adds_one _ _ _ Hb) as [i ->].
    destruct (IH _ H) as (added & Hadd & Hlen).
    exists (i :: added). split.
    + rewrite Hadd. simpl. rewrite <- app_assoc. reflexivity.
    + simpl. rewrite Hlen. reflexivity.
Qed.

Lemma messages_differ (line : string) (phase : pyval) :
  not_9_columns line <> unknown_phase phase.
Proof. unfold not_9_columns, unknown_phase. simpl. discriminate. Qed.

(** The phase column decides alone whether a nine-column line passes the
    phase test: the only value that passes is the dot. *)
Lemma phase_test (line c0 source type_ start end_ score strand column7 c8 : string)
  (imd : IntervalMetadata) :
  Py.split Py.tab line =
    [c0; source; type_; start; end_; score; strand; column7; c8] ->
  _parse_record [line] imd
    = (imd, Raise (GFF3FormatError (unknown_phase (PyStr column7))))
  <-> column7 <> ".".
Proof.
  intros Hsplit. rewrite parse_record_single, (body_nine _ _ _ _ _ _ _ _ _ _ imd Hsplit).
  destruct (bool_decide (column7 = ".")) eqn:Hdot.
  - apply bool_decide_eq_true in Hdot. split; [|tauto].
    destruct (Py.int start) as [s|err1] eqn:Hs.
    + destruct (Py.int end_) as [e|err2] eqn:He; [discriminate|].
      unfold Py.int in He. destruct (Py.int_literal end_); [discriminate|].
      injection He as <-. discriminate.
    + unfold Py.int in Hs. destruct (Py.int_literal start); [discriminate|].
      injection Hs as <-. discriminate.
  - apply bool_decide_eq_false in Hdot. tauto.
Qed.

(** C4, as the code has it: the phase columns 0, 1 and 2 are integer
    literals, and the column parser refuses each of them with the error for
    an unknown phase value; nothing is added to the collection.  The test
    [isinstance(phase, int)] is made on a [str] and never holds. *)
Theorem phase_integer_literals_refused :
  _parse_record [cds_with_phase "0"] empty_imd
    = (empty_imd,
       Raise (GFF3FormatError "unknown value for phase column: '0'"))
  /\ _parse_record [cds_with_phase "1"] empty_imd
    = (empty_imd,
       Raise (GFF3FormatError "unknown value for phase column: '1'"))
  /\ _parse_record [cds_with_phase "2"] empty_imd
    = (empty_imd,
       Raise (GFF3FormatError "unknown value for phase column: '2'"))
  /\ Py.int "0" = Ok 0%Z /\ Py.int "1" = Ok 1%Z /\ Py.int "2" = Ok 2%Z.
Proof. repeat split; reflexivity. Qed.

(** C9: a line that does not split into nine tab-separated columns makes the
    column parser raise the format error that quotes the line, and adds
    nothing; lines of eight and of ten fields are such lines.  A line of nine
    columns never raises that error. *)
Theorem column_count_validation (line : string) (imd : IntervalMetadata) :
  (length (Py.split Py.tab line) <> 9%nat ->
   _parse_record [line] imd
     = (imd, Raise (GFF3FormatError (not_9_columns line))))
  /\ (length (Py.split Py.tab line) = 9%nat ->
      forall quoted : string,
        snd (_parse_record [line] imd)
          <> Raise (GFF3FormatError (not_9_columns quoted)))
  /\ _parse_record [eight_fields] imd
       = (imd, Raise (GFF3FormatError (not_9_columns eight_fields)))
  /\ _parse_record [ten_fields] imd
       = (imd, Raise (GFF3FormatError (not_9_columns ten_fields))).
Proof.
  rewrite !parse_record_single.
  split; [|split; [|split; reflexivity]].
  - apply body_wrong_count.
  - intros Hlen quoted.
    columns_of line E; try discriminate Hlen.
    rewrite (body_nine _ _ _ _ _ _ _ _ _ _ imd E).
    destruct (bool_decide (c7 = ".")).
    + unfold Py.int.
      destruct (Py.int_literal c3); [destruct (Py.int_literal c4)|];
        simpl; discriminate.
    + cbn [snd]. intros H. apply (messages_differ quoted (PyStr c7)).
      congruence.
Qed.

Lemma column_count_validation_witness :
  _parse_record [eight_fields] empty_imd
    = (empty_imd, Raise (GFF3FormatError (not_9_columns eight_fields)))
  /\ snd (_parse_record [gene_line] empty_imd)
       <> Raise (GFF3FormatError (not_9_columns gene_line)).
Proof.
  split.
  - apply (proj1 (column_count_validation eight_fields empty_imd)).
    vm_compute. discriminate.
  - apply (proj1 (proj2 (column_count_validation gene_line empty_imd))).
    reflexivity.
Defined.

(** The part of the coordinate conversion that holds on the code: a line of
    nine columns whose start and end columns are integer literals and whose
    phase column is the dot adds one record to the collection, the single
    bound (start - 1, end) and the metadata of the source, type, score and
    strand columns.  Whatever the phase column is, a line the parser accepts
    has added that record and nothing else.  The line of the module
    docstring gives the bound (999, 9000) and the metadata source '.',
    type 'gene', score '.', strand '+'. *)
Theorem coordinate_conversion :
  (forall (line c0 source type_ start end_ score strand c8 : string)
          (s e : Z) (imd : IntervalMetadata),
      Py.split Py.tab line
        = [c0; source; type_; start; end_; score; strand; "."; c8] ->
      Py.int start = Ok s ->
      Py.int end_ = Ok e ->
      _parse_record [line] imd
        = (imd_add imd (record_of source type_ score strand s e), Ok tt))
  /\ (forall (line c0 source type_ start end_ score strand column7 c8 : string)
             (s e : Z) (imd imd' : IntervalMetadata),
        Py.split Py.tab line
          = [c0; source; type_; start; end_; score; strand; column7; c8] ->
        Py.int start = Ok s ->
        Py.int end_ = Ok e ->
        _parse_record [line] imd = (imd', Ok tt) ->
        imd' = imd_add imd (record_of source type_ score strand s e))
  /\ _parse_record [gene_line] empty_imd
       = ({| _intervals :=
               [{| bounds := [(999%Z, 9000%Z)];
                   metadata :=
                     {[ "source" := PyStr "."; "type" := PyStr "gene";
                        "score" := PyStr "."; "strand" := PyStr "+" ]} |}] |},
          Ok tt).
Proof.
  split; [|split; [|reflexivity]].
  - intros line c0 source type_ start end_ score strand c8 s e imd Hsplit Hs He.
    rewrite parse_record_single, (body_nine _ _ _ _ _ _ _ _ _ _ imd Hsplit), Hs, He.
    rewrite bool_decide_eq_true_2 by reflexivity.
    reflexivity.
  - intros line c0 source type_ start end_ score strand column7 c8 s e imd imd'
      Hsplit Hs He.
    rewrite parse_record_single, (body_nine _ _ _ _ _ _ _ _ _ _ imd Hsplit), Hs, He.
    destruct (bool_decide (column7 = ".")); [|discriminate].
    intros [= <-]. reflexivity.
Qed.

Lemma coordinate_conversion_witness :
  Py.split Py.tab gene_line
    = ["ctg123"; "."; "gene"; "1000"; "9000"; "."; "+"; ".";
       "ID=gene00001;Name=EDEN"]
  /\ Py.int "1000" = Ok 1000%Z
  /\ Py.int "9000" = Ok 9000%Z
  /\ _parse_record [gene_line] empty_imd
       = (imd_add empty_imd (record_of "." "gene" "." "+" 1000 9000), Ok tt).
Proof.
  do 3 (split; [reflexivity|]).
  apply (proj1 coordinate_conversion gene_line "ctg123" "." "gene" "1000" "9000"
           "." "+" "ID=gene00001;Name=EDEN" 1000%Z 9000%Z empty_imd);
    reflexivity.
Defined.

(** C6, as the code has it: the coding-sequence line of the test data has
    nine columns and the integer start and end columns 3 and 98, and the
    claim asks for the bound (2, 98) in the collection.  The parser refuses
    the line for its phase column 0 and adds nothing; after the docstring
    line in one group, the record of the docstring line, bound (999, 9000),
    is added and the coding-sequence line is refused.  This is the defect of
    C4: [isinstance(phase, int)] is tested on a [str]. *)
Theorem integer_phase_line_adds_nothing :
  Py.split Py.tab (cds_with_phase "0")
    = ["ctg123"; "Prodigal_v2.60"; "CDS"; "3"; "98"; "1.8"; "+"; "0"; "ID=1_1"]
  /\ Py.int "3" = Ok 3%Z
  /\ Py.int "98" = Ok 98%Z
  /\ _parse_record [cds_with_phase "0"] empty_imd
       = (empty_imd,
          Raise (GFF3FormatError "unknown value for phase column: '0'"))
  /\ _parse_record [gene_line; cds_with_phase "0"] empty_imd
       = ({| _intervals :=
               [{| bounds := [(999%Z, 9000%Z)];
                   metadata :=
                     {[ "source" := PyStr "."; "type" := PyStr "gene";
                        "score" := PyStr "."; "strand" := PyStr "+" ]} |}] |},
          Raise (GFF3FormatError "unknown value for phase column: '0'")).
Proof. repeat split; reflexivity. Qed.

(** ** Column parser: a group of lines *)

(** C5 as stated fails: the group of the docstring line followed by a line
    of eight fields raises on its second line, and by then the record of the
    first line is in the collection the caller supplied. *)
Lemma error_leaves_earlier_records :
  snd (_parse_record [gene_line; eight_fields] empty_imd)
    = Raise (GFF3FormatError (not_9_columns eight_fields))
  /\ fst (_parse_record [gene_line; eight_fields] empty_imd)
       = {| _intervals :=
              [{| bounds := [(999%Z, 9000%Z)]; metadata := gene_metadata |}] |}
  /\ fst (_parse_record [gene_line; eight_fields] empty_imd) <> empty_imd.
Proof.
  split; [reflexivity|]. split; [reflexivity|].
  intros H. apply (f_equal (fun imd => length (_intervals imd))) in H.
  vm_compute in H. discriminate.
Qed.

(** C5, amended: when parsing a group raises, it does so at a first failing
    line.  The lines before it were parsed and each of them added its record
    to the caller's collection, after the records the collection had; the
    failing line and the lines after it add nothing. *)
Theorem error_stops_at_failing_line (lns : list string)
  (imd imd' : IntervalMetadata) (e : exn) :
  _parse_record lns imd = (imd', Raise e) ->
  exists (pre : list string) (line : string) (post : list string)
         (added : list Interval),
    lns = pre ++ line :: post
    /\ _parse_record pre imd = (imd', Ok tt)
    /\ _parse_record_body line imd' = (imd', Raise e)
    /\ _intervals imd' = _intervals imd ++ added
    /\ length added = length pre.
Proof.
  intros H. unfold _parse_record in H.
  destruct (for_each_raise _ _ _ _ _ H) as (pre & line & post & imd1 & -> & Hpre & Hline).
  pose proof (body_raise_unchanged _ _ _ _ Hline) as ->.
  destruct (parse_record_ok_adds _ _ _ Hpre) as (added & Hadd & Hlen).
  exists pre, line, post, added. auto.
Qed.

Lemma error_stops_at_failing_line_witness :
  _parse_record [gene_line; eight_fields] empty_imd
    = (imd_add empty_imd (record_of "." "gene" "." "+" 1000 9000),
       Raise (GFF3FormatError (not_9_columns eight_fields)))
  /\ exists (pre : list string) (line : string) (post : list string)
            (added : list Interval),
       [gene_line; eight_fields] = pre ++ line :: post
       /\ _parse_record pre empty_imd
            = (imd_add empty_imd (record_of "." "gene" "." "+" 1000 9000), Ok tt)
       /\ _parse_record_body line
            (imd_add empty_imd (record_of "." "gene" "." "+" 1000 9000))
            = (imd_add empty_imd (record_of "." "gene" "." "+" 1000 9000),
               Raise (GFF3FormatError (not_9_columns eight_fields)))
       /\ _intervals (imd_add empty_imd (record_of "." "gene" "." "+" 1000 9000))
            = _intervals empty_imd ++ added
       /\ length added = length pre.
Proof.
  split; [reflexivity|].
  apply (error_stops_at_failing_line [gene_line; eight_fields] empty_imd).
  reflexivity.
Defined.

(** ** Strings: what stripping and splitting keep *)

Lemma split1_no_sep (sep : ascii) (s : string) :
  Py.contains sep s = false -> Py.split1 sep s = [s].
Proof.
  induction s as [|c s IH]; simpl; [reflexivity|].
  destruct (bool_decide (c = sep)); simpl; [discriminate|].
  intros H. rewrite (IH H). reflexivity.
Qed.

Lemma split1_sep (sep : ascii) (s : string) :
  Py.contains sep s = true -> exists a b, Py.split1 sep s = [a; b].
Proof.
  induction s as [|c s IH]; simpl; [discriminate|].
  destruct (bool_decide (c = sep)); simpl.
  - intros _. eauto.
  - intros H. destruct (IH H) as (a & b & ->). eauto.
Qed.

Lemma contains_lstrip (c : ascii) (s : string) :
  Py.contains c s = false -> Py.contains c (Py.lstrip s) = false.
Proof.
  induction s as [|d s IH]; simpl; [reflexivity|].
  intros H. apply orb_false_iff in H as [Hd Hs].
  destruct (Py.is_space d); [auto|]. simpl. rewrite Hd, Hs. reflexivity.
Qed.

Lemma contains_rstrip (c : ascii) (s : string) :
  Py.contains c s = false -> Py.contains c (Py.rstrip s) = false.
Proof.
  induction s as [|d s IH]; simpl; [reflexivity|].
  intros H. apply orb_false_iff in H as [Hd Hs]. specialize (IH Hs).
  destruct (Py.rstrip s) as [|d' r].
  - destruct (Py.is_space d); simpl; [reflexivity|]. rewrite Hd. reflexivity.
  - simpl in *. rewrite Hd, IH. reflexivity.
Qed.

Lemma contains_strip (c : ascii) (s : string) :
  Py.contains c s = false -> Py.contains c (Py.strip s) = false.
Proof. intros H. apply contains_rstrip, contains_lstrip, H. Qed.

Lemma lstrip_head (s : string) :
  Py.lstrip s = "" \/
  exists c t, Py.lstrip s = String c t /\ Py.is_space c = false.
Proof.
  induction s as [|d s IH]; simpl; [auto|].
  destruct (Py.is_space d) eqn:Hd; [exact IH|]. right. eauto.
Qed.

Lemma rstrip_head (c : ascii) (t : string) :
  Py.is_space c = false -> Py.rstrip (String c t) = String c (Py.rstrip t).
Proof.
  intros Hc. simpl. rewrite Hc. destruct (Py.rstrip t); reflexivity.
Qed.

(** A stripped line is empty or starts with a character that is not
    whitespace. *)
Lemma strip_head (s : string) :
  Py.strip s = "" \/
  exists c t, Py.strip s = String c t /\ Py.is_space c = false.
Proof.
  unfold Py.strip. destruct (lstrip_head s) as [->|(c & t & -> & Hc)].
  - auto.
  - right. rewrite (rstrip_head _ _ Hc). eauto.
Qed.

Lemma strip_not_blank (s : string) :
  Py.strip s <> "" ->
  Py.isspace (Py.strip s) || bool_decide (Py.strip s = "") = false.
Proof.
  intros H. destruct (strip_head s) as [E|(c & t & E & Hc)]; [contradiction|].
  rewrite E. simpl. rewrite Hc. reflexivity.
Qed.

Lemma line_generator_app (l1 l2 : list string) (skip_blanks strip : bool) :
  _line_generator (l1 ++ l2) skip_blanks strip
  = _line_generator l1 skip_blanks strip ++ _line_generator l2 skip_blanks strip.
Proof.
  induction l1 as [|raw l1 IH]; simpl; [reflexivity|].
  rewrite IH.
  destruct (skip_blanks && _); reflexivity.
Qed.

(** ** The record grouper *)

(** One turn, in a state where [current] is [False]: a comment is skipped, a
    data line with a tab is appended, a data line without a tab raises.  In
    each case [current] stays [False] and nothing is yielded. *)
Lemma body_comment (line : string) (g : grouper) :
  is_data line = false -> _yield_record_body line g = (g, Ok tt).
Proof.
  unfold is_data, _yield_record_body. intros H. rewrite H. reflexivity.
Qed.

Lemma body_no_tab (line : string) (g : grouper) :
  is_data line = true -> Py.contains Py.tab line = false ->
  _yield_record_body line g = (g, Raise unpack_got_1).
Proof.
  unfold is_data, _yield_record_body. intros H Htab. rewrite H.
  unfold bind, lift. rewrite (split1_no_sep _ _ Htab). reflexivity.
Qed.

Lemma body_tab (line : string) (g : grouper) :
  is_data line = true -> Py.contains Py.tab line = true ->
  current g = CurFalse ->
  _yield_record_body line g
  = ({| lines := lines g ++ [line]; current := CurFalse;
        yielded := yielded g |}, Ok tt).
Proof.
  unfold is_data, _yield_record_body. intros H Htab Hcur. rewrite H.
  destruct (split1_sep _ _ Htab) as (a & b & E).
  unfold bind, lift. rewrite E. cbn [Py.unpack2 fst]. rewrite Hcur.
  rewrite (bool_decide_eq_true_2 (CurFalse = CurFalse)) by reflexivity.
  rewrite orb_true_r. unfold lines_append, modify. rewrite Hcur. reflexivity.
Qed.

(** The loop never leaves the states where [current] is [False]: the source
    assigns [current] only [False].  So the loop yields nothing, and the
    only way it ends early is the unpacking error. *)
Lemma grouper_loop_invariant (lns : list string) (g g' : grouper)
  (r : result unit) :
  current g = CurFalse ->
  for_each _yield_record_body lns g = (g', r) ->
  current g' = CurFalse /\ yielded g' = yielded g
  /\ (r = Ok tt \/ r = Raise unpack_got_1).
Proof.
  revert g. induction lns as [|line lns IH]; intros g Hcur H.
  - inversion H; subst. auto.
  - simpl in H. unfold bind in H.
    destruct (is_data line) eqn:Hd.
    + destruct (Py.contains Py.tab line) eqn:Ht.
      * rewrite (body_tab _ _ Hd Ht Hcur) in H.
        apply IH in H; [|reflexivity].
        destruct H as (? & ? & ?). auto.
      * rewrite (body_no_tab _ _ Hd Ht) in H. inversion H; subst. auto.
    + rewrite (body_comment _ _ Hd) in H. apply (IH _ Hcur H).
Qed.

(** When every data line has a tab, the loop appends the data lines, in
    order, to the one buffer. *)
Lemma grouper_loop_tabbed (lns : list string) (g : grouper) :
  Forall (fun line => is_data line = true -> Py.contains Py.tab line = true) lns ->
  current g = CurFalse ->
  for_each _yield_record_body lns g
  = ({| lines := lines g ++ List.filter is_data lns; current := CurFalse;
        yielded := yielded g |}, Ok tt).
Proof.
  intros Hall. revert g. induction Hall as [|line lns Hline _ IH]; intros g Hcur.
  - simpl. rewrite app_nil_r. destruct g; simpl in *; subst. reflexivity.
  - simpl. unfold bind. destruct (is_data line) eqn:Hd.
    + rewrite (body_tab _ _ Hd (Hline eq_refl) Hcur), IH by reflexivity.
      simpl. rewrite <- app_assoc. reflexivity.
    + rewrite (body_comment _ _ Hd). apply (IH _ Hcur).
Qed.

(** Whatever the lines are, the generator yields at most one pair, and its
    identifier is [False]: the runs of the input are never told apart. *)
Lemma yield_record_tabbed (fh : list string) :
  Forall (fun line => is_data line = true -> Py.contains Py.tab line = true)
    (_line_generator fh true true) ->
  _yield_record fh
  = ([(CurFalse, List.filter is_data (_line_generator fh true true))], Ok tt).
Proof.
  intros Hall. unfold _yield_record, bind.
  rewrite (grouper_loop_tabbed _ _ Hall) by reflexivity. reflexivity.
Qed.

(** A data line without a tab, anywhere in the lines, makes the loop raise
    with nothing yielded. *)
Lemma grouper_loop_untabbed (pre post : list string) (line : string) (g : grouper) :
  current g = CurFalse ->
  is_data line = true -> Py.contains Py.tab line = false ->
  exists g',
    for_each _yield_record_body (pre ++ line :: post) g = (g', Raise unpack_got_1)
    /\ yielded g' = yielded g.
Proof.
  intros Hcur Hd Ht. rewrite for_each_app.
  destruct (for_each _yield_record_body pre g) as [g1 r] eqn:Hpre.
  destruct (grouper_loop_invariant _ _ _ _ Hcur Hpre) as (Hcur1 & Hy & [-> | ->]).
  - simpl. unfold bind. rewrite (body_no_tab _ _ Hd Ht). eauto.
  - eauto.
Qed.

(** C10: in a stream that has a line without a tab character which is
    neither blank nor a comment, the grouper raises the unpacking error of
    [seq_id, _ = line.split('\t', 1)] and yields no group.  The turn of the
    loop that gets this line raises in every state of the grouper: the line
    is neither appended nor skipped. *)
Theorem untabbed_line_raises (pre post : list string) (raw : string) :
  Py.strip raw <> "" ->
  Py.startswith "#" (Py.strip raw) = false ->
  Py.contains Py.tab raw = false ->
  _yield_record (pre ++ raw :: post)
    = ([], Raise (ValueError "not enough values to unpack (expected 2, got 1)"))
  /\ forall g : grouper,
       _yield_record_body (Py.strip raw) g
         = (g, Raise (ValueError "not enough values to unpack (expected 2, got 1)")).
Proof.
  intros Hblank Hcomment Htab.
  assert (Hd : is_data (Py.strip raw) = true)
    by (unfold is_data; rewrite Hcomment; reflexivity).
  pose proof (contains_strip _ _ Htab) as Ht.
  split; [|intros g; apply (body_no_tab _ _ Hd Ht)].
  unfold _yield_record. rewrite line_generator_app.
  cbn [_line_generator]. rewrite (strip_not_blank _ Hblank). cbn [andb].
  set (g0 := {| lines := []; current := CurFalse; yielded := [] |}).
  destruct (grouper_loop_untabbed (_line_generator pre true true)
              (_line_generator post true true) _ g0 eq_refl Hd Ht)
    as (g' & Hrun & Hy).
  unfold bind. rewrite Hrun, Hy. reflexivity.
Qed.

Lemma untabbed_line_raises_witness :
  Py.strip ("ctg123 . gene 1000 9000 . + . ID=gene00002" +:+ newline) <> ""
  /\ _yield_record untabbed_stream
       = ([], Raise (ValueError "not enough values to unpack (expected 2, got 1)")).
Proof.
  split; [vm_compute; discriminate|].
  apply (untabbed_line_raises
           ["##gff-version 3" +:+ newline; gene_line +:+ newline]
           [gene_line +:+ newline]
           ("ctg123 . gene 1000 9000 . + . ID=gene00002" +:+ newline)).
  - vm_compute. discriminate.
  - reflexivity.
  - reflexivity.
Defined.

(** C2, as the code has it: on a stream with a line of seq1, a line of seq2
    and a second line of seq1, the grouper yields one pair, whose identifier
    is [False] and whose lines are all three data lines, where the grouping
    of the spec has three pairs.  The source never assigns an identifier to
    [current], so its test for a new identifier never holds. *)
Theorem runs_are_merged :
  _yield_record two_sequences
    = ([(CurFalse, [seq1_line; seq2_line; seq1_line])], Ok tt)
  /\ spec_group two_sequences
       = [(Some "seq1", [seq1_line]); (Some "seq2", [seq2_line]);
          (Some "seq1", [seq1_line])].
Proof. split; reflexivity. Qed.

(** ** The sniffer *)

Lemma lstrip_empty_iff (s : string) :
  Py.lstrip s = "" <-> Py.all_space s = true.
Proof.
  induction s as [|c s IH]; simpl; [tauto|].
  destruct (Py.is_space c); simpl; [exact IH|]. split; discriminate.
Qed.

Lemma strip_empty_iff (s : string) :
  Py.strip s = "" <-> Py.all_space s = true.
Proof.
  rewrite <- lstrip_empty_iff. unfold Py.strip. split.
  - intros H. destruct (lstrip_head s) as [E|(c & t & E & Hc)]; [exact E|].
    rewrite E, (rstrip_head _ _ Hc) in H. discriminate.
  - intros ->. reflexivity.
Qed.

(** The two blank tests agree: the one of the line generator, made on the
    raw line, and the one of the probe, made on the stripped line. *)
Lemma blank_tests_agree (raw : string) :
  Py.isspace raw || bool_decide (raw = "") = bool_decide (Py.strip raw = "").
Proof.
  destruct raw as [|c s]; [reflexivity|].
  rewrite (bool_decide_eq_false_2 (String c s = "")) by discriminate.
  rewrite orb_false_r. unfold Py.isspace.
  destruct (Py.all_space (String c s)) eqn:E.
  - symmetry. apply bool_decide_eq_true_2, strip_empty_iff, E.
  - symmetry. apply bool_decide_eq_false_2. rewrite strip_empty_iff, E.
    discriminate.
Qed.

Lemma strip_prefix_spec (p s r : string) :
  Py.strip_prefix p s = Some r <-> s = p +:+ r.
Proof.
  revert s. induction p as [|a p IH]; intros s; simpl.
  - split; [intros [= ->]; reflexivity | intros ->; reflexivity].
  - destruct s as [|b s]; [split; discriminate|].
    destruct (bool_decide (a = b)) eqn:Hab.
    + apply bool_decide_eq_true in Hab. subst b. rewrite IH.
      split; [intros ->; reflexivity | intros [= ->]; reflexivity].
    + apply bool_decide_eq_false in Hab.
      split; [discriminate | intros [= -> _]; contradiction].
Qed.

Lemma lstrip_split (s : string) :
  exists ws, s = ws +:+ Py.lstrip s /\ Py.all_space ws = true.
Proof.
  induction s as [|c s (ws & IH & Hws)]; simpl.
  - exists "". auto.
  - destruct (Py.is_space c) eqn:Hc.
    + exists (String c ws). split.
      * change (String c s = String c (ws +:+ Py.lstrip s)).
        rewrite <- IH. reflexivity.
      * simpl. rewrite Hc, Hws. reflexivity.
    + exists "". auto.
Qed.

Lemma lstrip_app (ws : string) (c : ascii) (r : string) :
  Py.all_space ws = true -> Py.is_space c = false ->
  Py.lstrip (ws +:+ String c r) = String c r.
Proof.
  intros Hws Hc. induction ws as [|d ws IH].
  - change (Py.lstrip (String c r) = String c r).
    simpl. rewrite Hc. reflexivity.
  - simpl in Hws. apply andb_true_iff in Hws as [Hd Hws].
    change (Py.lstrip (String d (ws +:+ String c r)) = String c r).
    simpl. rewrite Hd. auto.
Qed.

Lemma re_match_iff (line : string) :
  Py.re_match_gff_version line = true <-> gff_version_3 line.
Proof.
  unfold Py.re_match_gff_version, gff_version_3. split.
  - destruct (Py.strip_prefix "##gff-version" line) as [[|c r]|] eqn:E;
      try discriminate.
    apply strip_prefix_spec in E. intros H.
    apply andb_true_iff in H as [Hc H3].
    destruct (lstrip_split r) as (ws & Hr & Hws).
    destruct (Py.lstrip r) as [|d r'] eqn:El; [discriminate|].
    simpl in H3. apply bool_decide_eq_true in H3. subst d.
    exists (String c ws), r'. repeat split.
    + rewrite E, Hr. reflexivity.
    + discriminate.
    + simpl. rewrite Hc, Hws. reflexivity.
  - intros (ws & rest & -> & Hne & Hws).
    destruct ws as [|c ws]; [contradiction|].
    simpl in Hws. apply andb_true_iff in Hws as [Hc Hws].
    replace (Py.strip_prefix "##gff-version"
               ("##gff-version" +:+ String c ws +:+ "3" +:+ rest))
      with (Some (String c (ws +:+ String "3" rest))).
    + rewrite Hc. simpl. rewrite (lstrip_app _ _ _ Hws) by reflexivity.
      reflexivity.
    + symmetry. apply strip_prefix_spec. reflexivity.
Qed.

Lemma blanks_then_line (blanks rest : list string) (line : string) :
  Forall blank blanks -> ~ blank line ->
  leading_blanks (blanks ++ line :: rest) = length blanks
  /\ _line_generator (blanks ++ line :: rest) true false
       = line :: _line_generator rest true false.
Proof.
  intros Hb Hl. induction Hb as [|raw blanks Hraw _ [IH1 IH2]]; simpl.
  - rewrite blank_tests_agree.
    rewrite (bool_decide_eq_false_2 (Py.strip line = "")) by exact Hl. auto.
  - rewrite blank_tests_agree.
    rewrite (bool_decide_eq_true_2 (Py.strip raw = "")) by exact Hraw.
    rewrite IH1, IH2. auto.
Qed.

Lemma all_blank (fh : list string) :
  Forall blank fh -> _line_generator fh true false = [].
Proof.
  induction 1 as [|raw fh Hraw _ IH]; simpl; [reflexivity|].
  rewrite blank_tests_agree.
  rewrite (bool_decide_eq_true_2 (Py.strip raw = "")) by exact Hraw. exact IH.
Qed.

Lemma first_non_blank (fh : list string) :
  Forall blank fh \/
  exists blanks line rest,
    fh = blanks ++ line :: rest /\ Forall blank blanks /\ ~ blank line.
Proof.
  induction fh as [|raw fh IH]; [left; constructor|].
  destruct (decide (Py.strip raw = "")) as [Hraw|Hraw].
  - destruct IH as [IH|(blanks & line & rest & -> & Hb & Hl)].
    + left. constructor; assumption.
    + right. exists (raw :: blanks), line, rest. repeat split; auto.
  - right. exists [], raw, fh. repeat split; auto.
Qed.

Lemma sniffer_all_blank (fh : list string) :
  Forall blank fh -> _gff3_sniffer fh = Ok (false, ∅).
Proof.
  intros H. unfold _gff3_sniffer. rewrite (all_blank _ H). simpl.
  destruct (_too_many_blanks fh 5); reflexivity.
Qed.

Lemma sniffer_first_line (blanks rest : list string) (line : string) :
  Forall blank blanks -> ~ blank line ->
  _gff3_sniffer (blanks ++ line :: rest)
  = Ok (bool_decide (length blanks <= 5) && Py.re_match_gff_version line, ∅).
Proof.
  intros Hb Hl. unfold _gff3_sniffer, _too_many_blanks.
  destruct (blanks_then_line blanks rest line Hb Hl) as [-> ->]. simpl.
  destruct (Nat.ltb_spec 5 (length blanks)).
  - rewrite bool_decide_eq_false_2 by lia. reflexivity.
  - rewrite bool_decide_eq_true_2 by lia. simpl.
    destruct (Py.re_match_gff_version line); reflexivity.
Qed.

(** C7: the sniffer raises on no stream; it returns a boolean with the empty
    mapping, and the boolean is true exactly when the stream is at most five
    blank lines, then a non-blank line that matches [##gff-version], whitespace
    and 3, then anything.  The directive with version 3.2.1 is a match, also
    after five blank lines; the directive with version 2, the empty stream
    and six blank lines before the directive are not. *)
Theorem sniffer_match :
  (forall fh : list string,
     exists b : bool,
       _gff3_sniffer fh = Ok (b, ∅)
       /\ (b = true <->
           exists (blanks : list string) (line : string) (rest : list string),
             fh = blanks ++ line :: rest
             /\ length blanks <= 5
             /\ Forall blank blanks
             /\ ~ blank line
             /\ gff_version_3 line))
  /\ _gff3_sniffer [version_line "3.2.1"; gene_line +:+ newline] = Ok (true, ∅)
  /\ _gff3_sniffer
       (replicate 5 newline ++ [version_line "3.2.1"; gene_line +:+ newline])
       = Ok (true, ∅)
  /\ _gff3_sniffer [version_line "2"; gene_line +:+ newline] = Ok (false, ∅)
  /\ _gff3_sniffer [] = Ok (false, ∅)
  /\ _gff3_sniffer
       (replicate 6 newline ++ [version_line "3.2.1"; gene_line +:+ newline])
       = Ok (false, ∅).
Proof.
  split; [|repeat split; reflexivity].
  intros fh.
  destruct (first_non_blank fh) as [Hall|(blanks & line & rest & -> & Hb & Hl)].
  - exists false. split; [apply sniffer_all_blank, Hall|].
    split; [discriminate|].
    intros (blanks & line & rest & -> & _ & _ & Hl & _).
    apply Forall_app in Hall as [_ Hall]. inversion Hall; subst. contradiction.
  - eexists. split; [apply sniffer_first_line; assumption|]. split.
    + intros H. apply andb_true_iff in H as [Hlen Hm].
      apply bool_decide_eq_true in Hlen. apply re_match_iff in Hm.
      exists blanks, line, rest. auto.
    + intros (blanks' & line' & rest' & E & Hlen & Hb' & Hl' & Hm).
      pose proof (sniffer_first_line blanks' rest' line' Hb' Hl') as H1.
      rewrite <- E, (sniffer_first_line blanks rest line Hb Hl) in H1.
      injection H1 as ->.
      rewrite bool_decide_eq_true_2 by exact Hlen.
      apply re_match_iff in Hm. rewrite Hm. reflexivity.
Qed.

(** ** The attribute parser *)

Lemma split_length (sep : ascii) (s : string) :
  length (Py.split sep s) = S (count sep s).
Proof.
  induction s as [|c s IH]; simpl; [reflexivity|].
  destruct (bool_decide (c = sep)); simpl.
  - rewrite IH. reflexivity.
  - destruct (Py.split sep s); simpl in *; [discriminate|exact IH].
Qed.

Lemma split_no_sep (sep : ascii) (s : string) :
  count sep s = 0 -> Py.split sep s = [s].
Proof.
  induction s as [|c s IH]; simpl; [reflexivity|].
  destruct (bool_decide (c = sep)); simpl; [discriminate|].
  intros H. rewrite (IH H). reflexivity.
Qed.

(** With one separator in the string, cutting at every separator and cutting
    at the first one are the same. *)
Lemma split_one_sep (sep : ascii) (s : string) :
  count sep s = 1 ->
  exists a b, Py.split sep s = [a; b] /\ Py.split1 sep s = [a; b].
Proof.
  induction s as [|c s IH]; simpl; [discriminate|].
  destruct (bool_decide (c = sep)); simpl.
  - intros [= H]. rewrite (split_no_sep _ _ H). eauto.
  - intros H. destruct (IH H) as (a & b & -> & ->). eauto.
Qed.

Lemma unpack2_raise {A : Type} (l : list A) :
  length l <> 2 -> exists msg, Py.unpack2 l = Raise (ValueError msg).
Proof.
  destruct l as [|a [|b [|c l]]]; simpl; intros H;
    [eauto | eauto | contradiction | eauto].
Qed.

Lemma attr_body_ok (table md : gmap string string) (segment : string) :
  one_equals segment ->
  _parse_attr_body table md segment
  = Ok (insert_pair md (tag_value table segment)).
Proof.
  intros H. destruct (split_one_sep _ _ H) as (a & b & Hs & Hs1).
  unfold _parse_attr_body, tag_value, insert_pair, rename.
  rewrite Hs, Hs1. simpl. destruct (table !! a); reflexivity.
Qed.

Lemma attr_body_raise (table md : gmap string string) (segment : string) :
  ~ one_equals segment ->
  exists msg, _parse_attr_body table md segment = Raise (ValueError msg).
Proof.
  intros H. unfold _parse_attr_body.
  destruct (unpack2_raise (Py.split "=" segment)) as [msg ->].
  - rewrite split_length. unfold one_equals in H. lia.
  - exists msg. reflexivity.
Qed.

Lemma attr_loop_ok (table md : gmap string string) (segments : list string) :
  Forall one_equals segments ->
  parse_attr_loop table md segments
  = Ok (foldl insert_pair md (map (tag_value table) segments)).
Proof.
  intros H. revert md. induction H as [|segment segments Hs _ IH]; intros md.
  - reflexivity.
  - simpl. rewrite (attr_body_ok _ _ _ Hs). simpl. apply IH.
Qed.

Lemma attr_loop_raise (table md : gmap string string) (segments : list string) :
  Exists (fun segment => ~ one_equals segment) segments ->
  exists msg, parse_attr_loop table md segments = Raise (ValueError msg).
Proof.
  intros H. revert md. induction H as [segment segments Hs|segment segments _ IH];
    intros md; simpl.
  - destruct (attr_body_raise table md _ Hs) as [msg ->]. exists msg. reflexivity.
  - destruct (decide (one_equals segment)) as [Hs|Hs].
    + rewrite (attr_body_ok _ _ _ Hs). simpl. apply IH.
    + destruct (attr_body_raise table md _ Hs) as [msg ->]. exists msg. reflexivity.
Qed.

(** Inserting pairs in order: the last pair with a given tag decides. *)
Lemma foldl_insert_last (pairs after : list (string * string))
  (m : gmap string string) (k v : string) :
  k ∉ after.*1 ->
  foldl insert_pair m (pairs ++ (k, v) :: after) !! k = Some v.
Proof.
  intros Hk. rewrite foldl_app. simpl.
  generalize (foldl insert_pair m pairs). intros m0.
  assert (Hin : insert_pair m0 (k, v) !! k = Some v)
    by apply lookup_insert_eq.
  revert Hin. generalize (insert_pair m0 (k, v)). clear m0.
  induction after as [|[k' v'] after IH]; intros m1 Hin; simpl; [exact Hin|].
  simpl in Hk. apply not_elem_of_cons in Hk as [Hne Hk].
  apply (IH Hk). unfold insert_pair. simpl.
  rewrite lookup_insert_ne by (intros E; apply Hne; symmetry; exact E).
  exact Hin.
Qed.

(** C8: when every semicolon-delimited segment has exactly one equals sign,
    the attribute parser returns the mapping of the spec: the tag and value
    of each segment, the tag renamed by the table, a later pair replacing an
    earlier one with the same tag.  When some segment has no equals sign or
    more than one, the parser raises the unpacking error.  With a table that
    renames neither ID nor Name, 'ID=gene1;Name=EDEN' gives ID gene1 and
    Name EDEN; 'ID=gene1;BadSegmentNoEquals' raises with every table. *)
Theorem attribute_parsing (table : gmap string string) :
  (forall raw : string,
     Forall one_equals (Py.split ";" raw) ->
     _parse_attr table raw = Ok (spec_attributes table raw))
  /\ (forall (raw : string) (before after : list (string * string))
             (k v : string),
        map (tag_value table) (Py.split ";" raw) = before ++ (k, v) :: after ->
        k ∉ after.*1 ->
        spec_attributes table raw !! k = Some v)
  /\ (forall raw : string,
        ~ Forall one_equals (Py.split ";" raw) ->
        exists msg, _parse_attr table raw = Raise (ValueError msg))
  /\ (table !! "ID" = None -> table !! "Name" = None ->
      _parse_attr table "ID=gene1;Name=EDEN"
        = Ok {[ "ID" := "gene1"; "Name" := "EDEN" ]})
  /\ _parse_attr table "ID=gene1;BadSegmentNoEquals"
       = Raise (ValueError "not enough values to unpack (expected 2, got 1)").
Proof.
  split; [|split; [|split; [|split]]].
  - intros raw H. apply attr_loop_ok, H.
  - intros raw before after k v E Hk. unfold spec_attributes. rewrite E.
    apply foldl_insert_last, Hk.
  - intros raw H. apply attr_loop_raise.
    apply not_Forall_Exists in H; [exact H|]. intros segment. apply _.
  - intros HID HName. unfold _parse_attr.
    change (Py.split ";" "ID=gene1;Name=EDEN") with ["ID=gene1"; "Name=EDEN"].
    unfold parse_attr_loop, _parse_attr_body.
    change (Py.split "=" "ID=gene1") with ["ID"; "gene1"].
    change (Py.split "=" "Name=EDEN") with ["Name"; "EDEN"].
    simpl. rewrite HID, HName. reflexivity.
  - unfold _parse_attr.
    change (Py.split ";" "ID=gene1;BadSegmentNoEquals")
      with ["ID=gene1"; "BadSegmentNoEquals"].
    unfold parse_attr_loop, _parse_attr_body.
    change (Py.split "=" "ID=gene1") with ["ID"; "gene1"].
    change (Py.split "=" "BadSegmentNoEquals") with ["BadSegmentNoEquals"].
    reflexivity.
Qed.

Lemma attribute_parsing_witness :
  Forall one_equals (Py.split ";" "Dbxref=GeneID:497097;ID=id1;ID=id2")
  /\ _parse_attr later_table "Dbxref=GeneID:497097;ID=id1;ID=id2"
       = Ok {[ "db_xref" := "GeneID:497097"; "ID" := "id2" ]}
  /\ _parse_attr later_table "ID=gene1;Name=EDEN"
       = Ok {[ "ID" := "gene1"; "Name" := "EDEN" ]}
  /\ (exists msg, _parse_attr later_table "ID=1_1;partial=10;"
                    = Raise (ValueError msg)).
Proof.
  assert (H : Forall one_equals (Py.split ";" "Dbxref=GeneID:497097;ID=id1;ID=id2"))
    by (repeat constructor).
  split; [exact H|]. split; [|split].
  - rewrite (proj1 (attribute_parsing later_table) _ H). reflexivity.
  - apply (proj1 (proj2 (proj2 (proj2 (attribute_parsing later_table)))));
      reflexivity.
  - apply (proj1 (proj2 (proj2 (attribute_parsing later_table)))).
    intros Hall. vm_compute in Hall.
    inversion Hall as [|? ? _ Hall1]; subst.
    inversion Hall1 as [|? ? _ Hall2]; subst.
    inversion Hall2 as [|? ? Hbad _]; subst. discriminate Hbad.
Defined.

(** ** The writer *)

(** An interval without bounds prints nothing, whatever the headers are. *)
Lemma write_interval_no_bounds (headers : option (list string)) (seq_id : string)
  (i : Interval) (fh : list string) :
  bounds i = [] -> write_interval headers seq_id i fh = (fh, Ok tt).
Proof. unfold write_interval. intros ->. reflexivity. Qed.

(** With the name unbound, the first bound of an interval raises before
    anything of the interval is printed. *)
Lemma write_interval_unbound (seq_id : string) (i : Interval) (fh : list string) :
  bounds i <> [] ->
  write_interval None seq_id i fh = (fh, Raise (NameError "_GFF3_HEADERS")).
Proof.
  unfold write_interval. destruct (bounds i) as [|bound rest]; [contradiction|].
  reflexivity.
Qed.

Lemma write_intervals_unbound (seq_id : string) (l : list Interval)
  (fh : list string) :
  Exists (fun i => bounds i <> []) l ->
  for_each (write_interval None seq_id) l fh
  = (fh, Raise (NameError "_GFF3_HEADERS")).
Proof.
  induction l as [|i l IH]; intros H; [inversion H|].
  simpl. unfold bind.
  destruct (decide (bounds i = [])) as [Hi|Hi].
  - rewrite (write_interval_no_bounds _ _ _ _ Hi).
    apply IH. inversion H; subst; [contradiction|assumption].
  - rewrite (write_interval_unbound _ _ _ Hi). reflexivity.
Qed.

(** The writer as the module has it: a collection with a bound in it makes
    the writer raise [NameError] once the header line is out, and a
    collection without bounds gets the header line only. *)
Lemma writer_unbound (obj : IntervalMetadata) (seq_id : string) (fh : list string) :
  Exists (fun i => bounds i <> []) (_intervals obj) ->
  _interval_metadata_to_gff3 module_GFF3_HEADERS obj seq_id fh
  = (fh ++ [header_line], Raise (NameError "_GFF3_HEADERS")).
Proof.
  intros H. unfold _interval_metadata_to_gff3, bind, print, modify.
  apply write_intervals_unbound, H.
Qed.

Lemma write_intervals_no_bounds (headers : option (list string))
  (seq_id : string) (l : list Interval) (fh : list string) :
  Forall (fun i => bounds i = []) l ->
  for_each (write_interval headers seq_id) l fh = (fh, Ok tt).
Proof.
  induction 1 as [|i l Hi _ IH]; [reflexivity|].
  simpl. unfold bind. rewrite (write_interval_no_bounds _ _ _ _ Hi). exact IH.
Qed.

Lemma writer_no_bounds (headers : option (list string)) (obj : IntervalMetadata)
  (seq_id : string) (fh : list string) :
  Forall (fun i => bounds i = []) (_intervals obj) ->
  _interval_metadata_to_gff3 headers obj seq_id fh = (fh ++ [header_line], Ok tt).
Proof.
  intros H. unfold _interval_metadata_to_gff3, bind, print, modify.
  apply write_intervals_no_bounds, H.
Qed.

(** C3, as the code has it: on the collection of the writer test of the
    repository, one record with one bound, the writer prints the header line
    and then raises [NameError]: the loop over the columns reads
    [_GFF3_HEADERS], a name the module does not bind. *)
Theorem writer_raises_name_error :
  _interval_metadata_to_gff3 module_GFF3_HEADERS test_imd "ctg123" []
    = (["##gff-version 3"], Raise (NameError "_GFF3_HEADERS")).
Proof. reflexivity. Qed.

(** The writer is partial for another reason, whatever list the name were
    bound to: a metadata value that is an [int], under a key the headers
    name, ends in the [TypeError] of [str.join]. *)
Lemma str_items_int (before after : list pyval) (z : Z) :
  exists msg, str_items (before ++ PyInt z :: after) = Raise (TypeError msg).
Proof.
  induction before as [|[s|z'] before [msg IH]]; simpl; eauto.
  rewrite IH. simpl. eauto.
Qed.

Lemma writer_int_value (first head : string) (others : list string) (seq_id : string) :
  head <> "START" -> head <> "END" ->
  exists msg,
    _interval_metadata_to_gff3 (Some (first :: head :: others))
      {| _intervals :=
           [{| bounds := [(0%Z, 9%Z)]; metadata := {[ head := PyInt 0 ]} |}] |}
      seq_id []
    = ([header_line], Raise (TypeError msg)).
Proof.
  intros Hs He.
  unfold _interval_metadata_to_gff3, bind, print, modify. simpl.
  unfold bind, write_interval. simpl. unfold write_bound, bind, lift. simpl.
  unfold column at 1.
  rewrite (bool_decide_eq_false_2 (head = "START")) by exact Hs.
  rewrite (bool_decide_eq_false_2 (head = "END")) by exact He.
  rewrite lookup_singleton_eq.
  destruct (str_items_int [] (map (column {[ head := PyInt 0 ]} (0%Z, 9%Z)) others) 0)
    as [msg E].
  simpl in E. rewrite E. simpl. exists msg. reflexivity.
Qed.

(** ** Reading, then writing *)

Lemma gene_column_no_equals (head : string) :
  no_equals (column gene_metadata (999%Z, 9000%Z) head).
Proof.
  unfold column.
  destruct (bool_decide (head = "START")); [reflexivity|].
  destruct (bool_decide (head = "END")); [reflexivity|].
  destruct (gene_metadata !! head) as [v|] eqn:E; [|reflexivity].
  unfold gene_metadata in E.
  repeat (apply lookup_insert_Some in E as [[_ <-]|[_ E]]; [reflexivity|]).
  apply lookup_singleton_Some in E as [_ <-]. reflexivity.
Qed.

Lemma contains_app (c : ascii) (s t : string) :
  Py.contains c (s +:+ t) = Py.contains c s || Py.contains c t.
Proof.
  induction s as [|d s IH]; [reflexivity|].
  change (Py.contains c (String d (s +:+ t))
          = Py.contains c (String d s) || Py.contains c t).
  simpl. rewrite IH, orb_assoc. reflexivity.
Qed.

Lemma str_items_no_equals (columns : list pyval) :
  Forall no_equals columns ->
  exists items,
    str_items columns = Ok items
    /\ Forall (fun s => Py.contains "=" s = false) items.
Proof.
  induction 1 as [|[s|z] columns Hv _ (items & IH & Hitems)]; simpl.
  - eauto.
  - rewrite IH. simpl. eauto.
  - destruct Hv.
Qed.

Lemma join_no_equals (items : list string) :
  Forall (fun s => Py.contains "=" s = false) items ->
  Py.contains "=" (Py.join Py.tab items) = false.
Proof.
  induction 1 as [|s items Hs Hitems IH]; [reflexivity|].
  destruct items as [|t items]; [exact Hs|].
  change (Py.contains "=" (s +:+ String Py.tab (Py.join Py.tab (t :: items)))
          = false).
  rewrite contains_app, Hs. simpl in *. exact IH.
Qed.

(** Whatever [_GFF3_HEADERS] is bound to, or unbound, the writer does not
    print the docstring line for the collection read from it. *)
Lemma gene_line_not_written (headers : option (list string)) :
  gene_line ∉ fst (_interval_metadata_to_gff3 headers gene_imd "ctg123" []).
Proof.
  destruct headers as [headers|].
  - unfold _interval_metadata_to_gff3, bind, print, modify. simpl.
    unfold bind, write_interval. simpl. unfold write_bound, bind, lift. simpl.
    destruct (str_items_no_equals
                (map (column gene_metadata (999%Z, 9000%Z)) (drop 1 headers)))
      as (items & -> & Hitems).
    { apply List.Forall_map, Forall_forall.
      intros head _. apply gene_column_no_equals. }
    simpl. intros Hin.
    apply elem_of_cons in Hin as [Hin|Hin]; [discriminate Hin|].
    apply list_elem_of_singleton in Hin.
    assert (Hno : Py.contains "=" (Py.join Py.tab ("ctg123" :: items)) = false).
    { apply join_no_equals. constructor; [reflexivity|exact Hitems]. }
    assert (E : gene_line = Py.join Py.tab ("ctg123" :: items)) by exact Hin.
    rewrite <- E in Hno. vm_compute in Hno. discriminate.
  - change (gene_line ∉ ["##gff-version 3"]). intros Hin.
    apply list_elem_of_singleton in Hin. vm_compute in Hin. discriminate.
Qed.

(** C1, as the code has it: reading the stream of the module docstring, cut
    to its first data line, gives a collection of one record; writing that
    collection under the same sequence identifier prints the header line and
    raises [NameError]: the data line is not printed. *)
Theorem round_trip_loses_data_line :
  _gff3_to_interval_metadata gene_stream 1 empty_imd = (gene_imd, Ok tt)
  /\ _interval_metadata_to_gff3 module_GFF3_HEADERS gene_imd "ctg123" []
       = (["##gff-version 3"], Raise (NameError "_GFF3_HEADERS"))
  /\ gene_line
       ∉ fst (_interval_metadata_to_gff3 module_GFF3_HEADERS gene_imd "ctg123" []).
Proof.
  split; [reflexivity|]. split; [reflexivity|]. apply gene_line_not_written.
Qed.


(** * Further properties *)

(** ** The grouper, on every stream *)

Lemma forallb_false_split {A : Type} (f : A -> bool) (l : list A) :
  forallb f l = false ->
  exists pre x post, l = pre ++ x :: post /\ f x = false.
Proof.
  induction l as [|x l IH]; simpl; [discriminate|].
  destruct (f x) eqn:Hx; simpl.
  - intros H. destruct (IH H) as (pre & y & post & -> & Hy).
    exists (x :: pre), y, post. auto.
  - intros _. exists [], x, l. auto.
Qed.

Lemma tabbed_Forall (l : list string) :
  forallb has_tab_or_comment l = true ->
  Forall (fun line => is_data line = true -> Py.contains Py.tab line = true) l.
Proof.
  induction l as [|x l IH]; simpl; [constructor|].
  intros H. apply andb_true_iff in H as [Hx Hl].
  constructor; [|exact (IH Hl)].
  intros Hd. unfold has_tab_or_comment in Hx. rewrite Hd in Hx. exact Hx.
Qed.

(** The two ways the grouper can run *)
Lemma yield_record_shape (fh : list string) :
  (forallb has_tab_or_comment (grouper_lines fh) = true
   /\ _yield_record fh = ([(CurFalse, data_lines fh)], Ok tt))
  \/ (forallb has_tab_or_comment (grouper_lines fh) = false
      /\ _yield_record fh = ([], Raise unpack_got_1)).
Proof.
  destruct (forallb has_tab_or_comment (grouper_lines fh)) eqn:E.
  - left. split; [reflexivity|]. apply yield_record_tabbed, tabbed_Forall, E.
  - right. split; [reflexivity|].
    destruct (forallb_false_split _ _ E) as (pre & line & post & Hl & Hline).
    unfold has_tab_or_comment in Hline.
    apply orb_false_iff in Hline as [Hd Ht]. apply negb_false_iff in Hd.
    unfold _yield_record. fold (grouper_lines fh). rewrite Hl.
    set (g0 := {| lines := []; current := CurFalse; yielded := [] |}).
    destruct (grouper_loop_untabbed pre post line g0 eq_refl Hd Ht)
      as (g' & Hrun & Hy).
    unfold bind. rewrite Hrun, Hy. reflexivity.
Qed.

(** X1: on every stream the grouper does one of two things.  When every
    line that reaches it is a comment or has a tab, it yields exactly one
    pair: the identifier [False] with all the data lines of the stream, in
    order and without the comments.  Otherwise it yields nothing and raises
    the unpacking error. *)
Theorem grouper_one_group_or_error (fh : list string) :
  _yield_record fh =
  if forallb has_tab_or_comment (_line_generator fh true true)
  then ([(CurFalse, List.filter is_data (_line_generator fh true true))], Ok tt)
  else ([], Raise (ValueError "not enough values to unpack (expected 2, got 1)")).
Proof.
  destruct (yield_record_shape fh) as [[E H]|[E H]];
    unfold grouper_lines in E; rewrite E; exact H.
Qed.

Lemma no_data_lines (fh : list string) :
  Forall (fun raw => Py.strip raw = ""
                     \/ Py.startswith "#" (Py.strip raw) = true) fh ->
  Forall (fun line => is_data line = false) (_line_generator fh true true).
Proof.
  induction 1 as [|raw fh Hraw _ IH]; simpl; [constructor|].
  destruct (Py.isspace (Py.strip raw) || bool_decide (Py.strip raw = "")) eqn:E;
    [exact IH|].
  constructor; [|exact IH].
  destruct Hraw as [Hraw|Hraw].
  - rewrite Hraw in E. discriminate E.
  - unfold is_data. rewrite Hraw. reflexivity.
Qed.

Lemma filter_none {A : Type} (f : A -> bool) (l : list A) :
  Forall (fun x => f x = false) l -> List.filter f l = [].
Proof.
  induction 1 as [|x l Hx _ IH]; simpl; [reflexivity|]. rewrite Hx. exact IH.
Qed.

(** X2: a stream without data lines (empty, or of blank lines and comments
    only, a comment being a line whose first character after stripping is
    the hash sign) still yields one pair: [False] with no lines. *)
Theorem grouper_without_data (fh : list string) :
  Forall (fun raw => Py.strip raw = ""
                     \/ Py.startswith "#" (Py.strip raw) = true) fh ->
  _yield_record fh = ([(CurFalse, [])], Ok tt).
Proof.
  intros H. apply no_data_lines in H.
  rewrite yield_record_tabbed.
  - rewrite (filter_none _ _ H). reflexivity.
  - eapply Forall_impl; [exact H|]. simpl. intros line Hl Hd. congruence.
Qed.

Lemma grouper_without_data_witness :
  _yield_record comments_only = ([(CurFalse, [])], Ok tt)
  /\ _yield_record [] = ([(CurFalse, [])], Ok tt).
Proof.
  split.
  - apply (grouper_without_data comments_only).
    constructor; [right; reflexivity|].
    constructor; [left; reflexivity|].
    constructor; [right; reflexivity|].
    constructor.
  - apply (grouper_without_data []). constructor.
Defined.

(** ** The readers *)

(** X3: reading record 1 parses every data line of the stream into the one
    collection, whatever the sequence identifiers of the lines are; and when
    a data line has no tab, the read raises before any line is parsed and
    the collection is untouched. *)
Theorem read_first_record (fh : list string) (imd : IntervalMetadata) :
  _gff3_to_interval_metadata fh 1 imd =
  if forallb has_tab_or_comment (_line_generator fh true true)
  then _parse_record (List.filter is_data (_line_generator fh true true)) imd
  else (imd, Raise (ValueError "not enough values to unpack (expected 2, got 1)")).
Proof.
  unfold _gff3_to_interval_metadata, bind, lift.
  destruct (yield_record_shape fh) as [[E H]|[E H]];
    unfold grouper_lines in E; rewrite E, H; reflexivity.
Qed.

(** X4: no stream has a second record: asking for record 2 or later raises,
    and the collection is untouched. *)
Theorem read_later_record (fh : list string) (rec_num : nat)
  (imd : IntervalMetadata) :
  2 <= rec_num ->
  exists e, _gff3_to_interval_metadata fh rec_num imd = (imd, Raise e).
Proof.
  intros Hn. destruct rec_num as [|[|n]]; try lia.
  unfold _gff3_to_interval_metadata, bind, lift.
  destruct (yield_record_shape fh) as [[_ H]|[_ H]]; rewrite H; simpl; eauto.
Qed.

Lemma read_later_record_witness :
  exists e, _gff3_to_interval_metadata two_sequences 2 empty_imd
            = (empty_imd, Raise e).
Proof. apply (read_later_record two_sequences 2 empty_imd). lia. Defined.

(** X5: with a dict that has no key [False] (a dict keyed by sequence
    identifiers has none) the generator reader yields no collection and
    leaves the dict as it was: it ends with [KeyError(False)], or with the
    unpacking error of the grouper when a data line has no tab. *)
Theorem generator_reader_yields_nothing (fh : list string)
  (dict : gmap current_id IntervalMetadata) :
  dict !! CurFalse = None ->
  _gff3_to_generator fh dict =
  ({| interval_metadata := dict; collections := [] |},
   Some (if forallb has_tab_or_comment (_line_generator fh true true)
         then KeyError CurFalse
         else Reraised
                (ValueError "not enough values to unpack (expected 2, got 1)"))).
Proof.
  intros Hd. unfold _gff3_to_generator.
  destruct (yield_record_shape fh) as [[E H]|[E H]];
    unfold grouper_lines in E; rewrite E, H; simpl.
  - rewrite Hd. reflexivity.
  - reflexivity.
Qed.

Lemma generator_reader_yields_nothing_witness :
  _gff3_to_generator two_sequences
    {[ CurStr "seq1" := empty_imd; CurStr "seq2" := empty_imd ]}
  = ({| interval_metadata :=
          {[ CurStr "seq1" := empty_imd; CurStr "seq2" := empty_imd ]};
        collections := [] |},
     Some (KeyError CurFalse)).
Proof.
  apply (generator_reader_yields_nothing two_sequences
           {[ CurStr "seq1" := empty_imd; CurStr "seq2" := empty_imd ]}).
  reflexivity.
Defined.

(** X6: with a dict that has the key [False], and a stream whose data lines
    all have a tab, the generator reader parses every data line into the
    collection under that key, whatever the identifiers of the lines are;
    it yields that one collection when the parse returns, and nothing when
    it raises. *)
Theorem generator_reader_false_key (fh : list string)
  (dict : gmap current_id IntervalMetadata) (imd : IntervalMetadata) :
  dict !! CurFalse = Some imd ->
  forallb has_tab_or_comment (_line_generator fh true true) = true ->
  _gff3_to_generator fh dict =
  let '(imd', r) :=
    _parse_record (List.filter is_data (_line_generator fh true true)) imd in
  match r with
  | Ok _ =>
      ({| interval_metadata := <[CurFalse := imd']> dict;
          collections := [imd'] |}, None)
  | Raise e =>
      ({| interval_metadata := <[CurFalse := imd']> dict;
          collections := [] |}, Some (Reraised e))
  end.
Proof.
  intros Hd E. unfold _gff3_to_generator.
  destruct (yield_record_shape fh) as [[_ H]|[E' _]];
    [|unfold grouper_lines in E'; congruence].
  rewrite H. simpl. rewrite Hd. unfold data_lines, grouper_lines.
  destruct (_parse_record _ imd) as [imd' [[]|e]]; reflexivity.
Qed.

Lemma generator_reader_false_key_witness :
  _gff3_to_generator two_sequences {[ CurFalse := empty_imd ]}
  = ({| interval_metadata :=
          {[ CurFalse :=
               {| _intervals :=
                    [record_of "." "gene" "." "+" 1 9;
                     record_of "." "gene" "." "+" 1 9;
                     record_of "." "gene" "." "+" 1 9] |} ]};
        collections :=
          [{| _intervals :=
                [record_of "." "gene" "." "+" 1 9;
                 record_of "." "gene" "." "+" 1 9;
                 record_of "." "gene" "." "+" 1 9] |}] |},
     None).
Proof.
  rewrite (generator_reader_false_key two_sequences {[ CurFalse := empty_imd ]}
             empty_imd) by reflexivity.
  reflexivity.
Defined.

(** ** The column parser, on every group *)

(** What one turn of the parser's loop does is the same in every
    collection: it adds one record, or it raises and adds nothing. *)
Lemma body_outcome (line : string) :
  (exists source type_ score strand s e,
     forall imd,
       _parse_record_body line imd
       = (imd_add imd (record_of source type_ score strand s e), Ok tt))
  \/ (exists err, forall imd, _parse_record_body line imd = (imd, Raise err)).
Proof.
  destruct (decide (length (Py.split Py.tab line) = 9%nat)) as [Hlen|Hlen].
  - columns_of line E; try discriminate Hlen.
    destruct (bool_decide (c7 = ".")) eqn:Hdot.
    + destruct (Py.int c3) as [s|err] eqn:Hs.
      * destruct (Py.int c4) as [e|err] eqn:He.
        -- left. exists c1, c2, c5, c6, s, e. intros imd.
           rewrite (body_nine _ _ _ _ _ _ _ _ _ _ imd E), Hdot, Hs, He.
           reflexivity.
        -- right. exists err. intros imd.
           rewrite (body_nine _ _ _ _ _ _ _ _ _ _ imd E), Hdot, Hs, He.
           reflexivity.
      * right. exists err. intros imd.
        rewrite (body_nine _ _ _ _ _ _ _ _ _ _ imd E), Hdot, Hs. reflexivity.
    + right. eexists. intros imd.
      rewrite (body_nine _ _ _ _ _ _ _ _ _ _ imd E), Hdot. reflexivity.
  - right. eexists. intros imd. apply body_wrong_count, Hlen.
Qed.

Lemma intervals_app_nil (imd : IntervalMetadata) :
  {| _intervals := _intervals imd ++ [] |} = imd.
Proof. destruct imd. simpl. rewrite app_nil_r. reflexivity. Qed.

(** X7: parsing a group only appends to the collection, and what it appends
    and how it ends do not depend on what the collection holds: the records
    already there stay first and unchanged, at most one record per line is
    added, and exactly one per line when the parse returns. *)
Theorem parse_record_appends (lns : list string) :
  exists (added : list Interval) (r : result unit),
    (forall imd : IntervalMetadata,
       _parse_record lns imd
       = ({| _intervals := _intervals imd ++ added |}, r))
    /\ length added <= length lns
    /\ (r = Ok tt -> length added = length lns).
Proof.
  induction lns as [|line lns (added & r & Hrun & Hle & Hok)].
  - exists [], (Ok tt). split; [|auto].
    intros imd. rewrite intervals_app_nil. reflexivity.
  - destruct (body_outcome line)
      as [(source & type_ & score & strand & s & e & Hb)|(err & Hb)].
    + exists (record_of source type_ score strand s e :: added), r.
      split; [|split].
      * intros imd. rewrite parse_record_cons, Hb, Hrun. simpl.
        rewrite <- app_assoc. reflexivity.
      * simpl. lia.
      * intros Hr. simpl. rewrite (Hok Hr). reflexivity.
    + exists [], (Raise err). split; [|split].
      * intros imd. rewrite parse_record_cons, Hb, intervals_app_nil.
        reflexivity.
      * simpl. lia.
      * discriminate.
Qed.

Lemma record_of_shape (source type_ score strand : string) (s e : Z) :
  stored_shape (record_of source type_ score strand s e).
Proof.
  split; [reflexivity|]. unfold record_of. simpl.
  rewrite !dom_insert_L, dom_singleton_L. set_solver.
Qed.

(** X8: every record the parser adds, also on a group that ends in an
    error, has one bound and exactly the keys source, type, score and
    strand: the sequence identifier, the phase and the attributes of a line
    are never stored. *)
Theorem stored_records_shape (lns : list string) (imd imd' : IntervalMetadata)
  (r : result unit) :
  _parse_record lns imd = (imd', r) ->
  exists added : list Interval,
    _intervals imd' = _intervals imd ++ added /\ Forall stored_shape added.
Proof.
  revert imd. induction lns as [|line lns IH]; intros imd H.
  - inversion H; subst. exists []. rewrite app_nil_r. auto.
  - rewrite parse_record_cons in H.
    destruct (body_outcome line)
      as [(source & type_ & score & strand & s & e & Hb)|(err & Hb)];
      rewrite Hb in H.
    + destruct (IH _ H) as (added & Hadd & Hshape).
      exists (record_of source type_ score strand s e :: added). split.
      * rewrite Hadd. simpl. rewrite <- app_assoc. reflexivity.
      * constructor; [apply record_of_shape|exact Hshape].
    + inversion H; subst. exists []. rewrite app_nil_r. auto.
Qed.

Lemma stored_records_shape_witness :
  exists added : list Interval,
    _intervals (fst (_parse_record [gene_line; gene_line; eight_fields] empty_imd))
    = _intervals empty_imd ++ added
    /\ Forall stored_shape added.
Proof.
  apply (stored_records_shape [gene_line; gene_line; eight_fields] empty_imd
           (fst (_parse_record [gene_line; gene_line; eight_fields] empty_imd))
           (snd (_parse_record [gene_line; gene_line; eight_fields] empty_imd))).
  reflexivity.
Defined.

(** X9: the first and the ninth column of a nine-column line, the sequence
    identifier and the attributes, have no part in what the parser does:
    two lines that agree on the seven columns between them give the same
    outcome. *)
Theorem seqid_and_attributes_ignored
  (line line' a0 a8 b0 b8 c1 c2 c3 c4 c5 c6 c7 : string)
  (imd : IntervalMetadata) :
  Py.split Py.tab line = [a0; c1; c2; c3; c4; c5; c6; c7; a8] ->
  Py.split Py.tab line' = [b0; c1; c2; c3; c4; c5; c6; c7; b8] ->
  _parse_record [line] imd = _parse_record [line'] imd.
Proof.
  intros H H'. rewrite !parse_record_single.
  rewrite (body_nine _ _ _ _ _ _ _ _ _ _ imd H).
  rewrite (body_nine _ _ _ _ _ _ _ _ _ _ imd H'). reflexivity.
Qed.

Lemma seqid_and_attributes_ignored_witness :
  _parse_record [gene_line] empty_imd = _parse_record [gene_line_renamed] empty_imd.
Proof.
  apply (seqid_and_attributes_ignored gene_line gene_line_renamed
           "ctg123" "ID=gene00001;Name=EDEN" "chr1" "Note=other"
           "." "gene" "1000" "9000" "." "+" "." empty_imd); reflexivity.
Defined.

(** X10: the phase column is tested before the coordinates are converted:
    a nine-column line raises the error for an unknown phase value exactly
    when its phase column is not the dot, whatever its start and end columns
    hold, and the collection is untouched. *)
Theorem phase_before_coordinates
  (line c0 source type_ start end_ score strand column7 c8 : string)
  (imd : IntervalMetadata) :
  Py.split Py.tab line
    = [c0; source; type_; start; end_; score; strand; column7; c8] ->
  _parse_record [line] imd
    = (imd, Raise (GFF3FormatError
                     ("unknown value for phase column: " +:+ Py.repr column7)))
  <-> column7 <> ".".
Proof. intros Hsplit. apply (phase_test _ _ _ _ _ _ _ _ _ _ imd Hsplit). Qed.

Lemma phase_before_coordinates_witness :
  _parse_record [tsv ["ctg123"; "."; "CDS"; "start"; "end"; "."; "+"; "0"; "ID=c"]]
    empty_imd
  = (empty_imd, Raise (GFF3FormatError "unknown value for phase column: '0'")).
Proof.
  apply (proj2 (phase_before_coordinates
                  (tsv ["ctg123"; "."; "CDS"; "start"; "end"; "."; "+"; "0"; "ID=c"])
                  "ctg123" "." "CDS" "start" "end" "." "+" "0" "ID=c"
                  empty_imd eq_refl)).
  discriminate.
Defined.



(** X12: parsing two groups one after the other into a collection is
    parsing their concatenation: the second group starts from the collection
    the first one left, and an error in the first group stops there. *)
Theorem parse_record_app (lns1 lns2 : list string) (imd : IntervalMetadata) :
  _parse_record (lns1 ++ lns2) imd =
  match _parse_record lns1 imd with
  | (imd1, Ok _) => _parse_record lns2 imd1
  | (imd1, Raise e) => (imd1, Raise e)
  end.
Proof. unfold _parse_record. apply for_each_app. Qed.

(** ** The writer, on every collection *)

(** X13: with [_GFF3_HEADERS] unbound, as in the module, the writer prints
    the header line after what the file handle holds and nothing else; it
    returns when no record of the collection has a bound (so on the empty
    collection) and raises [NameError] otherwise. *)
Theorem writer_without_headers (obj : IntervalMetadata) (seq_id : string)
  (fh : list string) :
  _interval_metadata_to_gff3 module_GFF3_HEADERS obj seq_id fh =
  (fh ++ ["##gff-version 3"],
   if forallb (fun i => bool_decide (bounds i = [])) (_intervals obj)
   then Ok tt
   else Raise (NameError "_GFF3_HEADERS")).
Proof.
  destruct (forallb _ (_intervals obj)) eqn:E.
  - apply writer_no_bounds. apply Forall_forall. intros i Hi.
    rewrite forallb_forall in E. apply list_elem_of_In in Hi.
    apply (bool_decide_eq_true_1 _ (E i Hi)).
  - apply writer_unbound.
    destruct (forallb_false_split _ _ E) as (pre & i & post & -> & Hi).
    apply bool_decide_eq_false in Hi.
    apply Exists_app. right. constructor. exact Hi.
Qed.

(** X14: whatever [_GFF3_HEADERS] is bound to, and also when it is unbound,
    a collection whose records have no bounds, the empty collection among
    them, is written as the header line alone, and the writer returns. *)
Theorem writer_header_only (headers : option (list string))
  (obj : IntervalMetadata) (seq_id : string) (fh : list string) :
  Forall (fun i => bounds i = []) (_intervals obj) ->
  _interval_metadata_to_gff3 headers obj seq_id fh
  = (fh ++ ["##gff-version 3"], Ok tt).
Proof. apply writer_no_bounds. Qed.

Lemma writer_header_only_witness :
  _interval_metadata_to_gff3 (Some lower_headers) no_bounds_imd "ctg123" []
    = (["##gff-version 3"], Ok tt)
  /\ _interval_metadata_to_gff3 module_GFF3_HEADERS empty_imd "ctg123" []
       = (["##gff-version 3"], Ok tt).
Proof.
  split.
  - apply (writer_header_only (Some lower_headers) no_bounds_imd "ctg123" []).
    repeat constructor.
  - apply (writer_header_only module_GFF3_HEADERS empty_imd "ctg123" []).
    constructor.
Defined.

Lemma write_bounds_appends (headers : option (list string))
  (md : gmap string pyval) (bnds : list (Z * Z)) (columns : list pyval)
  (fh : list string) :
  exists out, fst (write_bounds headers md columns bnds fh) = fh ++ out.
Proof.
  revert columns fh. induction bnds as [|bound bnds IH]; intros columns fh.
  - exists []. simpl. rewrite app_nil_r. reflexivity.
  - simpl. unfold bind, write_bound. destruct headers as [hs|].
    + unfold bind, lift, print, modify, ret.
      destruct (str_items (columns ++ map (column md bound) (drop 1 hs)))
        as [items|e].
      * destruct (IH (columns ++ map (column md bound) (drop 1 hs))
                    (fh ++ [Py.join Py.tab items])) as [out Hout].
        exists (Py.join Py.tab items :: out). rewrite Hout, <- app_assoc.
        reflexivity.
      * exists []. simpl. rewrite app_nil_r. reflexivity.
    + exists []. simpl. rewrite app_nil_r. reflexivity.
Qed.

Lemma write_intervals_appends (headers : option (list string))
  (seq_id : string) (l : list Interval) (fh : list string) :
  exists out, fst (for_each (write_interval headers seq_id) l fh) = fh ++ out.
Proof.
  revert fh. induction l as [|i l IH]; intros fh.
  - exists []. simpl. rewrite app_nil_r. reflexivity.
  - simpl. unfold bind.
    destruct (write_bounds_appends headers (metadata i) (bounds i)
                [PyStr seq_id] fh) as [out1 H1].
    unfold write_interval.
    destruct (write_bounds headers (metadata i) [PyStr seq_id] (bounds i) fh)
      as [fh1 [[]|e]]; simpl in H1; subst fh1; simpl.
    + destruct (IH (fh ++ out1)) as [out2 H2].
      exists (out1 ++ out2). rewrite app_assoc. exact H2.
    + exists out1. reflexivity.
Qed.

(** X15: whatever [_GFF3_HEADERS] is bound to and however the writer ends,
    what the file handle held before stays first and unchanged, and the
    first line the writer adds is the header line. *)
Theorem writer_header_first (headers : option (list string))
  (obj : IntervalMetadata) (seq_id : string) (fh : list string) :
  exists rest : list string,
    fst (_interval_metadata_to_gff3 headers obj seq_id fh)
    = fh ++ "##gff-version 3" :: rest.
Proof.
  unfold _interval_metadata_to_gff3, bind, print, modify.
  destruct (write_intervals_appends headers seq_id (_intervals obj)
              (fh ++ ["##gff-version 3"])) as [out H].
  exists out. rewrite H, <- app_assoc. reflexivity.
Qed.

Lemma str_items_app (a b : list pyval) (ia ib : list string) :
  str_items a = Ok ia -> str_items b = Ok ib ->
  str_items (a ++ b) = Ok (ia ++ ib).
Proof.
  revert ia. induction a as [|[s|z] a IH]; intros ia Ha Hb; simpl in *.
  - injection Ha as <-. exact Hb.
  - destruct (str_items a) as [ia'|] eqn:E; [|discriminate].
    simpl in Ha. injection Ha as <-. rewrite (IH ia' eq_refl Hb). reflexivity.
  - discriminate.
Qed.

Lemma str_items_columns (md : gmap string pyval) (bound : Z * Z)
  (hs : list string) :
  all_str md ->
  exists items, str_items (map (column md bound) hs) = Ok items.
Proof.
  intros Hmd. induction hs as [|head hs [items IH]]; simpl; [eauto|].
  assert (exists s, column md bound head = PyStr s) as [s ->].
  { unfold column. destruct (bool_decide (head = "START")); [eauto|].
    destruct (bool_decide (head = "END")); [eauto|].
    destruct (md !! head) as [v|] eqn:E; [exact (Hmd _ _ E)|eauto]. }
  rewrite IH. simpl. eauto.
Qed.

Lemma write_bounds_str (hs : list string) (md : gmap string pyval)
  (bnds : list (Z * Z)) (columns : list pyval) (items : list string)
  (fh : list string) :
  all_str md -> str_items columns = Ok items ->
  exists out,
    write_bounds (Some hs) md columns bnds fh = (fh ++ out, Ok tt)
    /\ length out = length bnds.
Proof.
  intros Hmd. revert columns items fh.
  induction bnds as [|bound bnds IH]; intros columns items fh Hc.
  - exists []. simpl. rewrite app_nil_r. auto.
  - destruct (str_items_columns md bound (drop 1 hs) Hmd) as [items1 H1].
    pose proof (str_items_app _ _ _ _ Hc H1) as Happ.
    destruct (IH _ _ (fh ++ [Py.join Py.tab (items ++ items1)]) Happ)
      as (out & Hout & Hlen).
    exists (Py.join Py.tab (items ++ items1) :: out). split.
    + simpl. unfold bind, write_bound, bind, lift, print, modify, ret.
      rewrite Happ, Hout, <- app_assoc. reflexivity.
    + simpl. rewrite Hlen. reflexivity.
Qed.

(** X16: with [_GFF3_HEADERS] bound to a list, whatever the list, and a
    collection whose metadata values are all [str], the writer returns, and
    it prints the header line and then one line per bound of the
    collection. *)
Theorem writer_total_on_str (hs : list string) (obj : IntervalMetadata)
  (seq_id : string) (fh : list string) :
  Forall (fun i => all_str (metadata i)) (_intervals obj) ->
  exists out : list string,
    _interval_metadata_to_gff3 (Some hs) obj seq_id fh
    = (fh ++ "##gff-version 3" :: out, Ok tt)
    /\ length out = length (concat (map bounds (_intervals obj))).
Proof.
  intros Hall. unfold _interval_metadata_to_gff3, bind, print, modify.
  assert (H : forall fh0,
             exists out,
               for_each (write_interval (Some hs) seq_id) (_intervals obj) fh0
               = (fh0 ++ out, Ok tt)
               /\ length out = length (concat (map bounds (_intervals obj)))).
  { induction Hall as [|i l Hi _ IH]; intros fh0.
    - exists []. simpl. rewrite app_nil_r. auto.
    - destruct (write_bounds_str hs (metadata i) (bounds i) [PyStr seq_id]
                  [seq_id] fh0 Hi eq_refl) as (out1 & H1 & Hlen1).
      destruct (IH (fh0 ++ out1)) as (out2 & H2 & Hlen2).
      exists (out1 ++ out2). split.
      + simpl. unfold bind.
        change (write_interval (Some hs) seq_id i fh0)
          with (write_bounds (Some hs) (metadata i) [PyStr seq_id] (bounds i) fh0).
        rewrite H1, H2, app_assoc. reflexivity.
      + simpl. rewrite !length_app, Hlen1, Hlen2. reflexivity. }
  destruct (H (fh ++ ["##gff-version 3"])) as (out & Hout & Hlen).
  exists out. rewrite Hout, <- app_assoc. auto.
Qed.

Lemma writer_total_on_str_witness :
  exists out : list string,
    _interval_metadata_to_gff3 (Some lower_headers)
      {| _intervals := [two_bounds; record_of "." "gene" "." "+" 1000 9000] |}
      "ctg123" []
    = ([] ++ "##gff-version 3" :: out, Ok tt)
    /\ length out = 3.
Proof.
  apply (writer_total_on_str lower_headers
           {| _intervals := [two_bounds; record_of "." "gene" "." "+" 1000 9000] |}
           "ctg123" []).
  repeat constructor; intros k v H;
    unfold two_bounds, record_of in H; simpl in H;
    repeat (apply lookup_insert_Some in H as [[_ <-]|[_ H]]; [eauto|]);
    apply lookup_singleton_Some in H as [_ <-]; eauto.
Defined.

(** X17: the list of columns is made once per record and not per bound: for
    a record of two bounds the second line the writer prints has the
    sequence identifier, then the columns of the first bound again, then the
    columns of the second bound. *)
Theorem second_bound_repeats_columns (hs : list string) (seq_id : string)
  (md : gmap string pyval) (b1 b2 : Z * Z) (fh : list string) :
  all_str md ->
  exists c1 c2 : list string,
    str_items (map (column md b1) (drop 1 hs)) = Ok c1
    /\ str_items (map (column md b2) (drop 1 hs)) = Ok c2
    /\ write_interval (Some hs) seq_id {| bounds := [b1; b2]; metadata := md |} fh
       = (fh ++ [Py.join Py.tab (seq_id :: c1);
                 Py.join Py.tab (seq_id :: c1 ++ c2)], Ok tt).
Proof.
  intros Hmd.
  destruct (str_items_columns md b1 (drop 1 hs) Hmd) as [c1 H1].
  destruct (str_items_columns md b2 (drop 1 hs) Hmd) as [c2 H2].
  exists c1, c2. split; [exact H1|]. split; [exact H2|].
  pose proof (str_items_app [PyStr seq_id] _ [seq_id] _ eq_refl H1) as Ha.
  pose proof (str_items_app _ _ _ _ Ha H2) as Hb.
  unfold write_interval. cbn [bounds metadata write_bounds].
  unfold bind, write_bound, bind, lift, print, modify, ret.
  rewrite Ha, Hb, <- app_assoc. reflexivity.
Qed.

Lemma second_bound_repeats_columns_witness :
  write_interval (Some lower_headers) "ctg123" two_bounds []
  = ([tsv ["ctg123"; "."; "gene"; "1"; "9"; "."; "."; "."; "."];
      tsv ["ctg123"; "."; "gene"; "1"; "9"; "."; "."; "."; ".";
           "."; "gene"; "21"; "30"; "."; "."; "."; "."]], Ok tt).
Proof.
  destruct (second_bound_repeats_columns lower_headers "ctg123"
              (metadata two_bounds) (0%Z, 9%Z) (20%Z, 30%Z) [])
    as (c1 & c2 & H1 & H2 & H).
  - intros k v Hk. unfold two_bounds in Hk. simpl in Hk.
    apply lookup_insert_Some in Hk as [[_ <-]|[_ Hk]]; [eauto|].
    apply lookup_singleton_Some in Hk as [_ <-]. eauto.
  - vm_compute in H1. vm_compute in H2.
    injection H1 as <-. injection H2 as <-. exact H.
Defined.

(** ** The sniffer, on every stream *)

(** X18: the sniffer looks at nothing after the first non-blank line: two
    streams with the same leading blank lines and the same first non-blank
    line get the same answer. *)
Theorem sniffer_reads_first_line (blanks rest rest' : list string)
  (line : string) :
  Forall blank blanks -> ~ blank line ->
  _gff3_sniffer (blanks ++ line :: rest) = _gff3_sniffer (blanks ++ line :: rest').
Proof.
  intros Hb Hl. rewrite !sniffer_first_line by assumption. reflexivity.
Qed.

Lemma sniffer_reads_first_line_witness :
  _gff3_sniffer [newline; version_line "3.2.1"; gene_line +:+ newline]
  = _gff3_sniffer [newline; version_line "3.2.1"; "no GFF3 at all" +:+ newline].
Proof.
  apply (sniffer_reads_first_line [newline] [gene_line +:+ newline]
           ["no GFF3 at all" +:+ newline] (version_line "3.2.1")).
  - repeat constructor.
  - unfold blank. vm_compute. discriminate.
Defined.

(** X19: the first non-blank line is matched as it is, not stripped: when it
    starts with a whitespace character the sniffer reports no match, also
    for an indented version directive. *)
Theorem sniffer_indented_line (blanks rest : list string) (c : ascii)
  (s : string) :
  Forall blank blanks -> ~ blank (String c s) -> Py.is_space c = true ->
  _gff3_sniffer (blanks ++ String c s :: rest) = Ok (false, ∅).
Proof.
  intros Hb Hl Hc. rewrite sniffer_first_line by assumption.
  assert (Hm : Py.re_match_gff_version (String c s) = false).
  { unfold Py.re_match_gff_version. simpl.
    destruct (bool_decide ("#"%char = c)) eqn:E; [|reflexivity].
    apply bool_decide_eq_true in E. subst c. discriminate Hc. }
  rewrite Hm, andb_false_r. reflexivity.
Qed.

Lemma sniffer_indented_line_witness :
  _gff3_sniffer [" ##gff-version 3" +:+ newline; gene_line +:+ newline]
  = Ok (false, ∅).
Proof.
  apply (sniffer_indented_line [] [gene_line +:+ newline] " "%char
           ("##gff-version 3" +:+ newline)).
  - constructor.
  - unfold blank. vm_compute. discriminate.
  - reflexivity.
Defined.

(** ** The attribute parser, on every column *)

Lemma split_snoc_sep (sep : ascii) (s : string) :
  Py.split sep (s +:+ String sep "") = Py.split sep s ++ [""].
Proof.
  induction s as [|c s IH].
  - change (Py.split sep (String sep "") = [""; ""]). simpl.
    rewrite bool_decide_eq_true_2 by reflexivity. reflexivity.
  - change (Py.split sep (String c (s +:+ String sep ""))
            = Py.split sep (String c s) ++ [""]).
    simpl. rewrite IH. destruct (bool_decide (c = sep)); [reflexivity|].
    pose proof (split_length sep s) as Hlen.
    destruct (Py.split sep s); [discriminate Hlen|reflexivity].
Qed.

(** X20: an attribute column that is empty, or that ends in a semicolon,
    makes the attribute parser raise: its last segment is the empty string,
    which has no equals sign. *)
Theorem attr_trailing_semicolon (table : gmap string string) :
  (exists msg, _parse_attr table "" = Raise (ValueError msg))
  /\ (forall raw : string,
        exists msg, _parse_attr table (raw +:+ ";") = Raise (ValueError msg)).
Proof.
  split.
  - eexists. reflexivity.
  - intros raw. unfold _parse_attr. rewrite split_snoc_sep.
    apply attr_loop_raise, Exists_app. right. constructor.
    unfold one_equals. simpl. discriminate.
Qed.

Lemma split_parts_no_sep (sep : ascii) (s : string) :
  Forall (fun part => Py.contains sep part = false) (Py.split sep s).
Proof.
  induction s as [|c s IH]; simpl; [repeat constructor|].
  destruct (bool_decide (c = sep)) eqn:E.
  - constructor; [reflexivity|exact IH].
  - destruct (Py.split sep s) as [|h t]; [repeat constructor; simpl|].
    + rewrite E. reflexivity.
    + inversion IH; subst. constructor; [|assumption].
      simpl. rewrite E. assumption.
Qed.

Lemma split_parts_contain (sep c : ascii) (s : string) :
  Py.contains c s = false ->
  Forall (fun part => Py.contains c part = false) (Py.split sep s).
Proof.
  induction s as [|d s IH]; simpl; [repeat constructor|].
  intros H. apply orb_false_iff in H as [Hd Hs]. specialize (IH Hs).
  destruct (bool_decide (d = sep)).
  - constructor; [reflexivity|exact IH].
  - destruct (Py.split sep s) as [|h t]; [repeat constructor; simpl|].
    + rewrite Hd. reflexivity.
    + inversion IH; subst. constructor; [|assumption].
      simpl. rewrite Hd. assumption.
Qed.

Lemma foldl_insert_lookup (pairs : list (string * string))
  (m : gmap string string) (k v : string) :
  foldl insert_pair m pairs !! k = Some v ->
  m !! k = Some v \/ (k, v) ∈ pairs.
Proof.
  revert m. induction pairs as [|[k' v'] pairs IH]; intros m H; simpl in H.
  - auto.
  - destruct (IH _ H) as [Hm|Hin].
    + unfold insert_pair in Hm. simpl in Hm.
      apply lookup_insert_Some in Hm as [[<- <-]|[_ Hm]].
      * right. left.
      * auto.
    + right. right. exact Hin.
Qed.

(** X21: a value the attribute parser returns has no semicolon and no equals
    sign in it: a segment whose value has an equals sign is refused, not cut
    at the first one. *)
Theorem attr_values_clean (table : gmap string string) (raw : string)
  (md : gmap string string) (k v : string) :
  _parse_attr table raw = Ok md ->
  md !! k = Some v ->
  Py.contains ";" v = false /\ Py.contains "=" v = false.
Proof.
  intros Hok Hk.
  destruct (decide (Forall one_equals (Py.split ";" raw))) as [Hall|Hnot].
  - unfold _parse_attr in Hok. rewrite (attr_loop_ok _ _ _ Hall) in Hok.
    injection Hok as <-.
    apply foldl_insert_lookup in Hk as [Hk|Hin];
      [rewrite lookup_empty in Hk; discriminate|].
    apply list_elem_of_In, in_map_iff in Hin as (segment & Htv & Hseg).
    pose proof (proj1 (Forall_forall _ _) Hall segment
                  (proj2 (list_elem_of_In _ _) Hseg)) as Hone.
    pose proof (proj1 (Forall_forall _ _) (split_parts_no_sep ";" raw) segment
                  (proj2 (list_elem_of_In _ _) Hseg)) as Hsemi.
    destruct (split_one_sep _ _ Hone) as (a & b & Hs & Hs1).
    unfold tag_value in Htv. rewrite Hs1 in Htv. injection Htv as _ <-.
    pose proof (split_parts_no_sep "=" segment) as He.
    pose proof (split_parts_contain "=" ";" segment Hsemi) as Hc.
    rewrite Hs in He, Hc.
    inversion He as [|? ? _ He']; subst. inversion He'; subst.
    inversion Hc as [|? ? _ Hc']; subst. inversion Hc'; subst.
    auto.
  - apply not_Forall_Exists in Hnot; [|intros segment; apply _].
    destruct (attr_loop_raise table ∅ _ Hnot) as [msg Hr].
    unfold _parse_attr in Hok. congruence.
Qed.

Lemma attr_values_clean_witness :
  Py.contains ";" "GeneID:497097,Genbank:XM_006495550.2" = false
  /\ Py.contains "=" "GeneID:497097,Genbank:XM_006495550.2" = false.
Proof.
  apply (attr_values_clean later_table
           "ID=id1;Dbxref=GeneID:497097,Genbank:XM_006495550.2"
           {[ "ID" := "id1";
              "db_xref" := "GeneID:497097,Genbank:XM_006495550.2" ]}
           "db_xref" "GeneID:497097,Genbank:XM_006495550.2");
    reflexivity.
Defined.

(** ** Coordinates, written and read back *)

Lemma parse_digit_step (c : ascii) (k acc : Z) (b : bool) (s : string) :
  c <> "_"%char -> Py.digit_val c = Some k ->
  Py.parse_digits acc b (String c s) = Py.parse_digits (10 * acc + k) true s.
Proof.
  intros Hc Hk. cbn [Py.parse_digits].
  rewrite bool_decide_eq_false_2 by exact Hc. rewrite Hk. reflexivity.
Qed.

Ltac digit_step :=
  cbn [NilEmpty.string_of_uint];
  erewrite parse_digit_step by (discriminate || reflexivity);
  repeat match goal with
         | |- context [Z.of_nat ?n] =>
             let v := eval vm_compute in (Z.of_nat n) in
             change (Z.of_nat n) with v
         end.

Lemma parse_digits_acc (d : Decimal.uint) (p : positive) :
  Py.parse_digits (Z.pos p) true (NilEmpty.string_of_uint d)
  = Some (Z.pos (Pos.of_uint_acc d p)).
Proof.
  revert p. induction d as [|d IH|d IH|d IH|d IH|d IH|d IH|d IH|d IH|d IH|d IH];
    intros p; [reflexivity|..];
    digit_step; cbn [Pos.of_uint_acc]; rewrite <- IH; f_equal; lia.
Qed.

Lemma parse_digits_zero (d : Decimal.uint) :
  Py.parse_digits 0 true (NilEmpty.string_of_uint d)
  = Some (Z.of_N (Pos.of_uint d)).
Proof.
  induction d as [|d IH|d IH|d IH|d IH|d IH|d IH|d IH|d IH|d IH|d IH];
    [reflexivity|digit_step; exact IH|..];
    digit_step; cbn [Pos.of_uint Z.of_N]; rewrite <- parse_digits_acc; f_equal.
Qed.

Lemma parse_digits_first (d : Decimal.uint) :
  d <> Decimal.Nil ->
  Py.parse_digits 0 false (NilEmpty.string_of_uint d)
  = Py.parse_digits 0 true (NilEmpty.string_of_uint d).
Proof.
  destruct d; [contradiction|..]; intros _;
    cbn [NilEmpty.string_of_uint];
    erewrite !parse_digit_step by (discriminate || reflexivity); reflexivity.
Qed.

Lemma int_lstrip_head (c : ascii) (s : string) :
  Py.is_int_space c = false -> Py.int_lstrip (String c s) = String c s.
Proof. intros H. simpl. rewrite H. reflexivity. Qed.

Lemma int_rstrip_head (c : ascii) (t : string) :
  Py.is_int_space c = false ->
  Py.int_rstrip (String c t) = String c (Py.int_rstrip t).
Proof.
  intros Hc. simpl. rewrite Hc. destruct (Py.int_rstrip t); reflexivity.
Qed.

Lemma int_rstrip_digits (d : Decimal.uint) :
  Py.int_rstrip (NilEmpty.string_of_uint d) = NilEmpty.string_of_uint d.
Proof.
  induction d as [|d IH|d IH|d IH|d IH|d IH|d IH|d IH|d IH|d IH|d IH];
    [reflexivity|..];
    cbn [NilEmpty.string_of_uint]; rewrite int_rstrip_head by reflexivity;
    rewrite IH; reflexivity.
Qed.

Lemma int_literal_unsigned (s : string) (c : ascii) (t : string) :
  Py.int_strip s = String c t -> c <> "+"%char -> c <> "-"%char ->
  Py.int_literal s = Py.parse_digits 0 false (String c t).
Proof.
  unfold Py.int_literal. intros -> Hp Hm.
  destruct c as [[] [] [] [] [] [] [] []]; try reflexivity; contradiction.
Qed.

Lemma int_literal_minus (s t : string) :
  Py.int_strip s = String "-" t ->
  Py.int_literal s = Z.opp <$> Py.parse_digits 0 false t.
Proof. unfold Py.int_literal. intros ->. reflexivity. Qed.

(** What [str] prints has no whitespace for [int] to skip. *)
Lemma int_strip_digits (d : Decimal.uint) :
  Py.int_strip (NilEmpty.string_of_uint d) = NilEmpty.string_of_uint d
  /\ Py.int_strip (String "-" (NilEmpty.string_of_uint d))
     = String "-" (NilEmpty.string_of_uint d).
Proof.
  unfold Py.int_strip. split.
  - destruct d; [reflexivity|..]; cbn [NilEmpty.string_of_uint];
      rewrite int_lstrip_head by reflexivity;
      rewrite int_rstrip_head by reflexivity; rewrite int_rstrip_digits;
      reflexivity.
  - rewrite int_lstrip_head by reflexivity.
    rewrite int_rstrip_head by reflexivity. rewrite int_rstrip_digits.
    reflexivity.
Qed.

Lemma int_literal_digits (d : Decimal.uint) :
  d <> Decimal.Nil ->
  Py.int_literal (NilEmpty.string_of_uint d) = Some (Z.of_N (Pos.of_uint d))
  /\ Py.int_literal (String "-" (NilEmpty.string_of_uint d))
     = Some (- Z.of_N (Pos.of_uint d))%Z.
Proof.
  intros Hd. destruct (int_strip_digits d) as [Hs Hm]. split.
  - rewrite <- parse_digits_zero, <- (parse_digits_first d Hd).
    destruct d; [contradiction|..]; cbn [NilEmpty.string_of_uint] in *;
      apply (int_literal_unsigned _ _ _ Hs); discriminate.
  - rewrite (int_literal_minus _ _ Hm), (parse_digits_first d Hd),
      parse_digits_zero.
    reflexivity.
Qed.

(** [int] reads back what [str] prints. *)
Lemma int_str (z : Z) : Py.int (Py.str z) = Ok z.
Proof.
  unfold Py.int, Py.str. destruct z as [|p|p]; [reflexivity|..];
    cbn [Z.to_int NilZero.string_of_int];
    pose proof (Unsigned.to_uint_nonnil p) as Hn;
    destruct (int_literal_digits _ Hn) as [Hp Hm];
    rewrite (Unsigned.of_to p) in Hp, Hm.
  - replace (NilZero.string_of_uint (Pos.to_uint p))
      with (NilEmpty.string_of_uint (Pos.to_uint p))
      by (destruct (Pos.to_uint p); [contradiction|..]; reflexivity).
    rewrite Hp. reflexivity.
  - replace (NilZero.string_of_uint (Pos.to_uint p))
      with (NilEmpty.string_of_uint (Pos.to_uint p))
      by (destruct (Pos.to_uint p); [contradiction|..]; reflexivity).
    rewrite Hm. reflexivity.
Qed.

(** X22: the parser reads back the coordinates the writer prints.  For a
    bound the writer puts [str(bound[0] + 1)] under START and [str(bound[1])]
    under END; a nine-column line with these two columns and the dot as its
    phase is parsed into a record with that very bound. *)
Theorem coordinates_round_trip
  (line c0 source type_ score strand c8 : string) (md : gmap string pyval)
  (bound : Z * Z) (imd : IntervalMetadata) :
  Py.split Py.tab line
    = [c0; source; type_; Py.str (fst bound + 1); Py.str (snd bound);
       score; strand; "."; c8] ->
  column md bound "START" = PyStr (Py.str (fst bound + 1))
  /\ column md bound "END" = PyStr (Py.str (snd bound))
  /\ _parse_record [line] imd
     = ({| _intervals :=
             _intervals imd ++
             [{| bounds := [bound];
                 metadata :=
                   {[ "source" := PyStr source; "type" := PyStr type_;
                      "score" := PyStr score; "strand" := PyStr strand ]} |}] |},
        Ok tt).
Proof.
  intros Hsplit. split; [reflexivity|]. split; [reflexivity|].
  rewrite parse_record_single, (body_nine _ _ _ _ _ _ _ _ _ _ imd Hsplit).
  rewrite bool_decide_eq_true_2 by reflexivity. rewrite !int_str.
  unfold imd_add, record_of. rewrite Z.add_simpl_r. destruct bound.
  reflexivity.
Qed.

Lemma coordinates_round_trip_witness :
  _parse_record [gene_line] empty_imd
  = ({| _intervals :=
          [{| bounds := [(999%Z, 9000%Z)];
              metadata :=
                {[ "source" := PyStr "."; "type" := PyStr "gene";
                   "score" := PyStr "."; "strand" := PyStr "+" ]} |}] |},
     Ok tt).
Proof.
  apply (coordinates_round_trip gene_line "ctg123" "." "gene" "." "+"
           "ID=gene00001;Name=EDEN" gene_metadata (999%Z, 9000%Z) empty_imd).
  reflexivity.
Defined.
